(** * The load-balancer pool member resource

    A shallow embedding of [gcore/resource_gcore_lbmember.go]: the schema's
    two validators, the importer, and the four lifecycle operations
    (create, read, update, delete) over an explicit remote control plane.

    Conventions.
    - Go's [int] is read as [Z]; no arithmetic is performed on the values
      that flow through this file, so no wrap-around arises.
    - A [*schema.ResourceData] is mutated in place by the Go code; here every
      operation takes the resource data and returns the updated one.
    - A Go panic (an index out of range, a nil dereference, a failed type
      assertion) is an outcome of its own, never an error value. *)

From Stdlib Require Import ZArith String Ascii DecimalString Lia.
From stdpp Require Import base strings gmap list.

(** ** Constants *)

Definition minWeight : Z := 0.
Definition maxWeight : Z := 256.
Definition LBMemberResourceTimeoutMinutes : Z := 30.

(** ** Errors and diagnostics *)

(** The error values the resource tells apart.  [ErrDefault404] is
    [gcorecloud.ErrDefault404], the only dynamic type the delete path
    switches on. *)
Inductive error : Type :=
  | ErrDefault404 (msg : string)
  | ErrTimeout (msg : string)
  | ErrTaskFailed (msg : string)
  | ErrOther (msg : string).

(** The [Error()] method. *)
Definition Error (e : error) : string :=
  match e with
  | ErrDefault404 msg | ErrTimeout msg | ErrTaskFailed msg | ErrOther msg => msg
  end.

(** [fmt.Errorf] builds a fresh error that is none of the recognised kinds. *)
Definition fmt_Errorf (msg : string) : error := ErrOther msg.

Inductive result (A : Type) : Type :=
  | Ok (a : A)
  | Err (e : error).
Arguments Ok {A} a.
Arguments Err {A} e.

Inductive Severity := SevError | SevWarning.

Record Diagnostic := mkDiagnostic
  { severity : Severity; Summary : string; Detail : string }.

Definition Diagnostics := list Diagnostic.

Definition diag_FromErr (err : error) : Diagnostics :=
  [ mkDiagnostic SevError (Error err) "" ].

Definition diag_Errorf (msg : string) : Diagnostics :=
  [ mkDiagnostic SevError msg "" ].

Definition HasError (diags : Diagnostics) : bool :=
  existsb (fun dg => match severity dg with SevError => true | SevWarning => false end) diags.

(** ** Schema values and resource data *)

Inductive Value := VInt (n : Z) | VString (s : string).

Inductive TimeoutKey := TimeoutCreate | TimeoutUpdate | TimeoutDelete.

(** Configured timeouts, in whole seconds; [None] is "not overridden". *)
Module ResourceTimeout.
Record t := mk
  { Create : option Z; Update : option Z; Delete : option Z }.
End ResourceTimeout.

Record ResourceData := mkResourceData
  { Id : string;
    attrs : gmap string Value;
    Timeouts : ResourceTimeout.t }.

Definition SetId (d : ResourceData) (id : string) : ResourceData :=
  mkResourceData id (attrs d) (Timeouts d).

Definition Set_ (d : ResourceData) (key : string) (v : Value) : ResourceData :=
  mkResourceData (Id d) (<[key := v]> (attrs d)) (Timeouts d).

(** The one default of the schema: "weight" is 1 when the configuration
    leaves it out. *)
Definition schema_default (key : string) : option Value :=
  if String.eqb key "weight" then Some (VInt 1) else None.

(** [d.Get(key)]: the value set, or else the default of the schema. *)
Definition Get (d : ResourceData) (key : string) : option Value :=
  match attrs d !! key with
  | Some v => Some v
  | None => schema_default key
  end.

(** [d.Get(key).(string)] and [d.Get(key).(int)]: the schema fixes the type
    of every key, and a key with neither value nor default reads as the zero
    value of its type. *)
Definition Get_string (d : ResourceData) (key : string) : string :=
  match Get d key with
  | Some (VString s) => s
  | _ => ""
  end.

Definition Get_int (d : ResourceData) (key : string) : Z :=
  match Get d key with
  | Some (VInt n) => n
  | _ => 0%Z
  end.

(** [int(d.Timeout(key).Seconds())], with the resource's 30-minute default. *)
Definition d_Timeout (d : ResourceData) (key : TimeoutKey) : Z :=
  let configured :=
    match key with
    | TimeoutCreate => ResourceTimeout.Create (Timeouts d)
    | TimeoutUpdate => ResourceTimeout.Update (Timeouts d)
    | TimeoutDelete => ResourceTimeout.Delete (Timeouts d)
    end in
  default (LBMemberResourceTimeoutMinutes * 60)%Z configured.

(** ** Addresses and attribute paths *)

(** [net.IP] is a byte slice; [None] is the nil slice. *)
Definition net_IP := option (list Byte.byte).

Inductive PathStep := GetAttrStep (Name : string) | IndexStep (Key : Value).
Definition Path := list PathStep.

(** What the resource takes from Go's libraries as pure functions:
    [net.ParseIP], the [String] method of [net.IP] and the [%q] rendering of
    a [cty.Path]. *)
Class GoLib := mkGoLib
  { net_ParseIP : string -> net_IP;
    IP_String : net_IP -> string;
    fmt_q_Path : Path -> string }.

(** The [%d] rendering of an [int]. *)
Definition fmt_d (n : Z) : string := NilZero.string_of_int (Z.to_int n).

(** ** The validators of the schema *)

Section Validators.
Context `{GoLib}.

(** [ValidateDiagFunc] of "address". *)
Definition validate_address (val : string) (key : Path) : Diagnostics :=
  let v := val in
  let ip := net_ParseIP v in
  match ip with
  | Some _ => []
  | None =>
      diag_FromErr (fmt_Errorf (fmt_q_Path key ++ " must be a valid ip, got: " ++ v))
  end.

(** [ValidateDiagFunc] of "weight". *)
Definition validate_weight (val : Z) (path : Path) : Diagnostics :=
  let v := val in
  if ((v >=? minWeight)%Z && (v <=? maxWeight)%Z)%bool then []
  else diag_Errorf ("Valid values: " ++ fmt_d minWeight ++ " to " ++ fmt_d maxWeight
                      ++ " got: " ++ fmt_d v).
End Validators.

(** ** Import *)

(** Cut [s] at every occurrence of [sep]; a string without [sep] is one token. *)
Fixpoint split_on (sep : ascii) (s : string) : list string :=
  match s with
  | EmptyString => [EmptyString]
  | String c rest =>
      if Ascii.eqb c sep then EmptyString :: split_on sep rest
      else match split_on sep rest with
           | [] => [String c EmptyString]
           | tok :: toks => String c tok :: toks
           end
  end.

Definition atoi (s : string) : option Z :=
  Z.of_int <$> NilZero.int_of_string s.

Definition import_delimiter : ascii := "/"%char.

(** Modelled from the spec: [ImportStringParserExtended] is declared in
    another file of the provider.  The composite identifier is "a single
    string encoding four delimiter-separated tokens: project identifier,
    region identifier, member identifier, pool identifier", project and region
    being numeric; the delimiter is the one of the spec's example
    ["42/5/m-100/p-7"].  The text of the error is not specified. *)
Definition ImportStringParserExtended (infoStr : string)
    : result (Z * Z * string * string) :=
  match split_on import_delimiter infoStr with
  | [project; region; member; pool] =>
      match atoi project, atoi region with
      | Some projectID, Some regionID => Ok (projectID, regionID, member, pool)
      | _, _ => Err (fmt_Errorf ("failed import: wrong input id: " ++ infoStr))
      end
  | _ => Err (fmt_Errorf ("failed import: wrong input id: " ++ infoStr))
  end.

(** [Importer.StateContext].  The Go function returns the very resource data
    it was given, so the result is the final state of [d] together with the
    returned error or one-element slice. *)
Definition Importer_StateContext
    (parser : string -> result (Z * Z * string * string))
    (d : ResourceData) : ResourceData * result (list ResourceData) :=
  match parser (Id d) with
  | Err err => (d, Err err)
  | Ok (projectID, regionID, memberID, lbPoolID) =>
      let d := Set_ d "project_id" (VInt projectID) in
      let d := Set_ d "region_id" (VInt regionID) in
      let d := Set_ d "pool_id" (VString lbPoolID) in
      let d := SetId d memberID in
      (d, Ok [d])
  end.

(** ** The records exchanged with the control plane *)

Module PoolMember.
(** [Address] is a [*net.IP]: [None] is the nil pointer. *)
Record t := mk
  { Address : option net_IP;
    ID : string;
    Weight : Z;
    SubnetID : string;
    InstanceID : string;
    ProtocolPort : Z;
    OperatingStatus : string }.
End PoolMember.

Module CreatePoolMemberOpts.
Record t := mk
  { Address : net_IP;
    ProtocolPort : Z;
    Weight : Z;
    SubnetID : string;
    InstanceID : string;
    ID : string }.

(** The zero value, as [make] fills a fresh slice with. *)
Definition zero : t := mk None 0 0 "" "" "".
End CreatePoolMemberOpts.

Module Pool.
Record t := mk
  { ID : string; Name : string; Members : list PoolMember.t }.
End Pool.

Module UpdateOpts.
Record t := mk
  { Name : string; Members : list CreatePoolMemberOpts.t }.
End UpdateOpts.

Record RetryConfig := mkRetryConfig { Amount : Z; Interval : Z }.

Record RequestOpts := mkRequestOpts
  { ConflictRetryAmount : Z; ConflictRetryInterval : Z }.

Record TaskResults := mkTaskResults { Tasks : list string }.

(** [interface{}] as the task poller returns it: nil or a string. *)
Inductive Any := AnyNil | AnyString (s : string).

(** ** The control plane

    [Remote] is the state of everything outside the process; every call
    reads it and may change it.  [GetChange_old d field] is the prior value
    of [field] when the framework reports a change of it. *)
Class Backend (Remote Client TaskInfo : Type) := mkBackend
  { CreateClient : ResourceData -> Remote -> result Client * Remote;
    GetConflictRetryConfig : Z -> RetryConfig;
    lbpools_CreateMember :
      Client -> string -> CreatePoolMemberOpts.t -> RequestOpts -> Remote ->
      result TaskResults * Remote;
    lbpools_Get : Client -> string -> Remote -> result Pool.t * Remote;
    lbpools_Update :
      Client -> string -> UpdateOpts.t -> RequestOpts -> Remote ->
      result TaskResults * Remote;
    lbpools_DeleteMember :
      Client -> string -> string -> RequestOpts -> Remote ->
      result TaskResults * Remote;
    tasks_Get : Client -> string -> Remote -> result TaskInfo * Remote;
    lbpools_ExtractPoolMemberIDFromTask : TaskInfo -> result string;
    fmt_plus_v_TaskInfo : TaskInfo -> string;
    time_Now_RFC850 : Remote -> string;
    GetChange_old : ResourceData -> string -> option Value }.

Inductive PanicReason := IndexOutOfRange | NilDereference | InterfaceConversion.

(** How a lifecycle operation ends: it returns diagnostics, or it panics.
    Both carry the resource data and the remote state reached. *)
Inductive Outcome (Remote : Type) : Type :=
  | Return (diags : Diagnostics) (d : ResourceData) (r : Remote)
  | Panic (reason : PanicReason) (d : ResourceData) (r : Remote).
Arguments Return {Remote} diags d r.
Arguments Panic {Remote} reason d r.

Definition final_data {Remote} (o : Outcome Remote) : ResourceData :=
  match o with Return _ d _ | Panic _ d _ => d end.

(** A loop over the members either runs to its end or stops at a nil
    address; both carry the state reached. *)
Inductive loop (A : Type) : Type :=
  | Completed (a : A)
  | Aborted (a : A).
Arguments Completed {A} a.
Arguments Aborted {A} a.

Section Lifecycle.
Context `{GoLib} {Remote Client TaskInfo : Type} `{!Backend Remote Client TaskInfo}.

(** The type of [tasks.WaitTaskAndReturnResult]: client, task, the
    stop-on-error flag, the wait in seconds and the result retriever. *)
Definition TaskPoller : Type :=
  Client -> string -> bool -> Z ->
  (string -> Remote -> result Any * Remote) ->
  Remote -> result Any * Remote.

Variable WaitTaskAndReturnResult : TaskPoller.

(** Modelled from the spec: [revertState] is declared in another file of
    the provider.  It "re-derives the project/region identifying fields":
    each listed field whose value changed is set back, nothing else is
    touched. *)
Definition revertState (d : ResourceData) (fields : list string) : ResourceData :=
  foldl (fun d field =>
           match GetChange_old d field with
           | Some oldValue => Set_ d field oldValue
           | None => d
           end) d fields.

Definition request_opts (rc : RetryConfig) : RequestOpts :=
  mkRequestOpts (Amount rc) (Interval rc).

(** *** Read *)

(** The scan of [pool.Members] in [resourceLBMemberRead].  The loop has no
    [break]; [pm.Address.String()] dereferences the address pointer. *)
Fixpoint read_members (mid : string) (members : list PoolMember.t)
    (d : ResourceData) : loop ResourceData :=
  match members with
  | [] => Completed d
  | pm :: rest =>
      if String.eqb mid (PoolMember.ID pm) then
        match PoolMember.Address pm with
        | None => Aborted d
        | Some ip =>
            let d := Set_ d "address" (VString (IP_String ip)) in
            let d := Set_ d "protocol_port" (VInt (PoolMember.ProtocolPort pm)) in
            let d := Set_ d "weight" (VInt (PoolMember.Weight pm)) in
            let d := Set_ d "subnet_id" (VString (PoolMember.SubnetID pm)) in
            let d := Set_ d "instance_id" (VString (PoolMember.InstanceID pm)) in
            let d := Set_ d "operating_status" (VString (PoolMember.OperatingStatus pm)) in
            read_members mid rest d
        end
      else read_members mid rest d
  end.

Definition resourceLBMemberRead (d : ResourceData) (r : Remote) : Outcome Remote :=
  match CreateClient d r with
  | (Err err, r) => Return (diag_FromErr err) d r
  | (Ok client, r) =>
      match lbpools_Get client (Get_string d "pool_id") r with
      | (Err err, r) => Return (diag_FromErr err) d r
      | (Ok pool, r) =>
          let mid := Id d in
          match read_members mid (Pool.Members pool) d with
          | Aborted d => Panic NilDereference d r
          | Completed d =>
              let fields := ["project_id"; "region_id"] in
              let d := revertState d fields in
              Return [] d r
          end
      end
  end.

(** *** Create *)

(** The retriever handed to the poller by [resourceLBMemberCreate]. *)
Definition create_retriever (client : Client) (task : string) (r : Remote)
    : result Any * Remote :=
  match tasks_Get client task r with
  | (Err err, r) =>
      (Err (fmt_Errorf ("cannot get task with ID: " ++ task ++ ". Error: " ++ Error err)), r)
  | (Ok taskInfo, r) =>
      match lbpools_ExtractPoolMemberIDFromTask taskInfo with
      | Err err =>
          (Err (fmt_Errorf ("cannot retrieve LBMember ID from task info: " ++ Error err)), r)
      | Ok pmID => (Ok (AnyString pmID), r)
      end
  end.

(** The creation request built from the desired configuration; the literal
    names no [ID], which stays the empty string. *)
Definition create_opts (d : ResourceData) : CreatePoolMemberOpts.t :=
  CreatePoolMemberOpts.mk
    (net_ParseIP (Get_string d "address"))
    (Get_int d "protocol_port")
    (Get_int d "weight")
    (Get_string d "subnet_id")
    (Get_string d "instance_id")
    "".

Definition resourceLBMemberCreate (d : ResourceData) (r : Remote) : Outcome Remote :=
  match CreateClient d r with
  | (Err err, r) => Return (diag_FromErr err) d r
  | (Ok client, r) =>
      let opts := create_opts d in
      let timeout := d_Timeout d TimeoutCreate in
      let rc := GetConflictRetryConfig timeout in
      match lbpools_CreateMember client (Get_string d "pool_id") opts (request_opts rc) r with
      | (Err err, r) => Return (diag_FromErr err) d r
      | (Ok results, r) =>
          match Tasks results with
          | [] => Panic IndexOutOfRange d r
          | taskID :: _ =>
              match WaitTaskAndReturnResult client taskID true timeout
                      (create_retriever client) r with
              | (Err err, r) => Return (diag_FromErr err) d r
              | (Ok AnyNil, r) => Panic InterfaceConversion d r
              | (Ok (AnyString pmID), r) =>
                  let d := SetId d pmID in
                  match resourceLBMemberRead d r with
                  | Panic reason d r => Panic reason d r
                  | Return _ d r => Return [] d r
                  end
              end
          end
      end
  end.

(** *** Update *)

(** The loop of [resourceLBMemberUpdate] that fills [members], the slice made
    with the length of [pool.Members]; [i] is the index of the head of [pms].
    [*pm.Address] dereferences the address pointer; [None] is the panic. *)
Fixpoint update_loop (d : ResourceData) (i : nat) (pms : list PoolMember.t)
    (members : list CreatePoolMemberOpts.t) : option (list CreatePoolMemberOpts.t) :=
  match pms with
  | [] => Some members
  | pm :: rest =>
      if negb (String.eqb (PoolMember.ID pm) (Id d)) then
        match PoolMember.Address pm with
        | None => None
        | Some address =>
            update_loop d (S i) rest
              (<[i := CreatePoolMemberOpts.mk
                        address
                        (PoolMember.ProtocolPort pm)
                        (PoolMember.Weight pm)
                        (PoolMember.SubnetID pm)
                        (PoolMember.InstanceID pm)
                        (PoolMember.ID pm)]> members)
        end
      else
        update_loop d (S i) rest
          (<[i := CreatePoolMemberOpts.mk
                    (net_ParseIP (Get_string d "address"))
                    (Get_int d "protocol_port")
                    (Get_int d "weight")
                    (Get_string d "subnet_id")
                    (Get_string d "instance_id")
                    (Id d)]> members)
  end.

Definition update_members (d : ResourceData) (pms : list PoolMember.t)
    : option (list CreatePoolMemberOpts.t) :=
  update_loop d 0 pms (replicate (length pms) CreatePoolMemberOpts.zero).

(** The retriever handed to the poller by [resourceLBMemberUpdate]. *)
Definition update_retriever (client : Client) (task : string) (r : Remote)
    : result Any * Remote :=
  match tasks_Get client task r with
  | (Err err, r) =>
      (Err (fmt_Errorf ("cannot get task with ID: " ++ task ++ ". Error: " ++ Error err)), r)
  | (Ok taskInfo, r) =>
      match lbpools_ExtractPoolMemberIDFromTask taskInfo with
      | Err err =>
          (Err (fmt_Errorf ("cannot retrieve LBPool ID from task info: " ++ Error err
                              ++ ", " ++ fmt_plus_v_TaskInfo taskInfo ++ ", " ++ task)), r)
      | Ok lbPoolID => (Ok (AnyString lbPoolID), r)
      end
  end.

Definition resourceLBMemberUpdate (d : ResourceData) (r : Remote) : Outcome Remote :=
  match CreateClient d r with
  | (Err err, r) => Return (diag_FromErr err) d r
  | (Ok client, r) =>
      match lbpools_Get client (Get_string d "pool_id") r with
      | (Err err, r) => Return (diag_FromErr err) d r
      | (Ok pool, r) =>
          match update_members d (Pool.Members pool) with
          | None => Panic NilDereference d r
          | Some members =>
              let opts := UpdateOpts.mk (Pool.Name pool) members in
              let timeout := d_Timeout d TimeoutUpdate in
              let rc := GetConflictRetryConfig timeout in
              match lbpools_Update client (Pool.ID pool) opts (request_opts rc) r with
              | (Err err, r) => Return (diag_FromErr err) d r
              | (Ok results, r) =>
                  match Tasks results with
                  | [] => Panic IndexOutOfRange d r
                  | taskID :: _ =>
                      match WaitTaskAndReturnResult client taskID true timeout
                              (update_retriever client) r with
                      | (Err err, r) => Return (diag_FromErr err) d r
                      | (Ok _, r) =>
                          let d := Set_ d "last_updated" (VString (time_Now_RFC850 r)) in
                          resourceLBMemberRead d r
                      end
                  end
              end
          end
      end
  end.

(** *** Delete *)

(** The retriever handed to the poller by [resourceLBMemberDelete]: fetch the
    pool again and look for the member. *)
Definition delete_retriever (client : Client) (pid mid : string)
    (task : string) (r : Remote) : result Any * Remote :=
  match lbpools_Get client pid r with
  | (Err err, r) => (Err err, r)
  | (Ok pool, r) =>
      if existsb (fun pm => String.eqb (PoolMember.ID pm) mid) (Pool.Members pool)
      then (Err (fmt_Errorf ("pool member " ++ mid ++ " still exist")), r)
      else (Ok AnyNil, r)
  end.

Definition resourceLBMemberDelete (d : ResourceData) (r : Remote) : Outcome Remote :=
  match CreateClient d r with
  | (Err err, r) => Return (diag_FromErr err) d r
  | (Ok client, r) =>
      let mid := Id d in
      let pid := Get_string d "pool_id" in
      let timeout := d_Timeout d TimeoutDelete in
      let rc := GetConflictRetryConfig timeout in
      match lbpools_DeleteMember client pid mid (request_opts rc) r with
      | (Err err, r) =>
          match err with
          | ErrDefault404 _ => Return [] (SetId d "") r
          | _ => Return (diag_FromErr err) d r
          end
      | (Ok results, r) =>
          match Tasks results with
          | [] => Panic IndexOutOfRange d r
          | taskID :: _ =>
              match WaitTaskAndReturnResult client taskID true timeout
                      (delete_retriever client pid mid) r with
              | (Err err, r) => Return (diag_FromErr err) d r
              | (Ok _, r) => Return [] (SetId d "") r
              end
          end
      end
  end.

End Lifecycle.

(** ** The task poller *)

Inductive TaskState :=
  | TaskInProgress
  | TaskFinished
  | TaskInError (detail : string).

Section Poller.
Context {Remote Client TaskInfo : Type} `{!Backend Remote Client TaskInfo}.

(** The state a fetched task reports, and the number of status polls that
    fit in a wait of the given number of seconds. *)
Variable task_state : TaskInfo -> TaskState.
Variable poll_budget : Z -> nat.

(** Modelled from the spec: the task poller belongs to the client library,
    not to this file.  It "repeatedly fetches task status until one of: (a)
    terminal success [...] (b) terminal failure -- return a descriptive error
    identifying the task and failure detail; (c) timeout elapsed -- return a
    timeout error"; "any transport error while fetching task status is
    wrapped with the task identity [...] and returned".  The texts of the
    errors are not specified. *)
Fixpoint poll_until_terminal (polls : nat) (client : Client) (task : string)
    (r : Remote) : result unit * Remote :=
  match polls with
  | O => (Err (ErrTimeout ("timeout waiting for task " ++ task)), r)
  | S polls =>
      match tasks_Get client task r with
      | (Err err, r) => (Err (fmt_Errorf ("task " ++ task ++ ": " ++ Error err)), r)
      | (Ok info, r) =>
          match task_state info with
          | TaskFinished => (Ok (), r)
          | TaskInError detail =>
              (Err (ErrTaskFailed ("task " ++ task ++ " failed: " ++ detail)), r)
          | TaskInProgress => poll_until_terminal polls client task r
          end
      end
  end.


(** Modelled from the spec: on "(a) terminal success -- invoke [extract] on
    the task info and return its result/error".  The retriever takes the task
    identity, as the three callers in this file write it. *)
Definition WaitForTask : TaskPoller (Remote := Remote) (Client := Client) :=
  fun client task stopOnTaskError waitSeconds extract r =>
    match poll_until_terminal (poll_budget waitSeconds) client task r with
    | (Err err, r) => (Err err, r)
    | (Ok _, r) => extract task r
    end.

End Poller.

(** ** A scripted control plane

    An instance on which the operations run to a value: the remote state is
    the list of answers still to be given. *)

Module Script.

Record task_info := mk_task_info
  { state : TaskState; extracted : result string }.

Record t := mk
  { client : result unit;
    mutation : result TaskResults;
    pools : list (result Pool.t);
    polls : list (result task_info) }.

Definition next_pool (s : t) : result Pool.t * t :=
  match pools s with
  | [] => (Err (ErrOther "no answer left"), s)
  | answer :: rest => (answer, mk (client s) (mutation s) rest (polls s))
  end.

Definition next_poll (s : t) : result task_info * t :=
  match polls s with
  | [] => (Err (ErrOther "no answer left"), s)
  | answer :: rest => (answer, mk (client s) (mutation s) (pools s) rest)
  end.

#[export] Instance backend : Backend t unit task_info :=
  {| CreateClient := fun _ s => (client s, s);
     GetConflictRetryConfig := fun timeout => mkRetryConfig 1 1;
     lbpools_CreateMember := fun _ _ _ _ s => (mutation s, s);
     lbpools_Get := fun _ _ s => next_pool s;
     lbpools_Update := fun _ _ _ _ s => (mutation s, s);
     lbpools_DeleteMember := fun _ _ _ _ s => (mutation s, s);
     tasks_Get := fun _ _ s => next_poll s;
     lbpools_ExtractPoolMemberIDFromTask := extracted;
     fmt_plus_v_TaskInfo := fun _ => "{}";
     time_Now_RFC850 := fun _ => "Saturday, 31-Oct-26 12:00:00 UTC";
     GetChange_old := fun _ _ => None |}.

(** A poller that takes the task as finished and calls the retriever once. *)
Definition immediate : TaskPoller (Remote := t) (Client := unit) :=
  fun client task _ _ extract s => extract task s.

(** One status poll per second of the wait. *)
Definition poll_budget (waitSeconds : Z) : nat := Z.to_nat waitSeconds.

(** The task poller of the spec over this control plane. *)
Definition poller : TaskPoller (Remote := t) (Client := unit) :=
  WaitForTask state poll_budget.

(** IPv4 dotted quads only: enough to run the examples. *)
Definition octet (s : string) : option Byte.byte :=
  n ← atoi s;
  if ((0 <=? n)%Z && (n <=? 255)%Z)%bool then Byte.of_N (Z.to_N n) else None.

Definition parse_ipv4 (s : string) : net_IP :=
  match split_on "."%char s with
  | [a; b; c; d] =>
      a ← octet a; b ← octet b; c ← octet c; d ← octet d; Some [a; b; c; d]
  | _ => None
  end.

Definition show_ip (ip : net_IP) : string :=
  match ip with
  | None => "<nil>"
  | Some bytes =>
      String.concat "." (map (fun b => fmt_d (Z.of_N (Byte.to_N b))) bytes)
  end.

Definition show_path (p : Path) : string :=
  String.concat "."
    (map (fun step => match step with
                      | GetAttrStep name => name
                      | IndexStep _ => "[]"
                      end) p).

#[export] Instance lib : GoLib :=
  {| net_ParseIP := parse_ipv4; IP_String := show_ip; fmt_q_Path := show_path |}.

Definition timeouts : ResourceTimeout.t := ResourceTimeout.mk None None (Some 3%Z).

Definition resource (id : string) (kv : list (string * Value)) : ResourceData :=
  mkResourceData id (list_to_map kv) timeouts.

(** The pool of the spec's example: A(id=1,w=5), B(id=2,w=9), C(id=3,w=1). *)
Definition addressed (id address : string) (weight : Z) : PoolMember.t :=
  PoolMember.mk (Some (parse_ipv4 address)) id weight "subnet-1" "" 80 "ONLINE".

Definition member_A : PoolMember.t := addressed "1" "10.0.0.1" 5.
Definition member_B : PoolMember.t := addressed "2" "10.0.0.2" 9.
Definition member_C : PoolMember.t := addressed "3" "10.0.0.3" 1.

(** A member the control plane lists without an address. *)
Definition unaddressed (id : string) : PoolMember.t :=
  PoolMember.mk None id 1 "" "" 80 "ONLINE".

(** The desired configuration of the resource with the given identity:
    weight 42 at 10.0.0.2:8080, in pool "p-7". *)
Definition desired (id : string) : ResourceData :=
  resource id
    [("pool_id", VString "p-7"); ("address", VString "10.0.0.2");
     ("protocol_port", VInt 8080); ("weight", VInt 42);
     ("subnet_id", VString "subnet-2")].

Definition pool_of (members : list PoolMember.t) : Pool.t :=
  Pool.mk "p-7" "backend" members.

(** A control plane that hands out a client, answers every mutating call
    with the tasks [tasks], and then the pool fetches and the status polls
    with the listed answers, in order. *)
Definition plane (tasks : list string) (pools : list (result Pool.t))
    (polls : list (result task_info)) : t :=
  mk (Ok ()) (Ok (mkTaskResults tasks)) pools polls.

End Script.

(** ** What the reconciliation promises for one member *)

(** [opts] is the verbatim copy of the remote record [pm]: address, port,
    weight, subnet, instance and identity as observed. *)
Definition verbatim_copy (pm : PoolMember.t) (opts : CreatePoolMemberOpts.t) : Prop :=
  PoolMember.Address pm = Some (CreatePoolMemberOpts.Address opts)
  /\ CreatePoolMemberOpts.ProtocolPort opts = PoolMember.ProtocolPort pm
  /\ CreatePoolMemberOpts.Weight opts = PoolMember.Weight pm
  /\ CreatePoolMemberOpts.SubnetID opts = PoolMember.SubnetID pm
  /\ CreatePoolMemberOpts.InstanceID opts = PoolMember.InstanceID pm
  /\ CreatePoolMemberOpts.ID opts = PoolMember.ID pm.

(** [opts] carries the desired configuration of [d] and the identity of [d]. *)
Definition desired_config `{GoLib} (d : ResourceData) (opts : CreatePoolMemberOpts.t) : Prop :=
  CreatePoolMemberOpts.Address opts = net_ParseIP (Get_string d "address")
  /\ CreatePoolMemberOpts.ProtocolPort opts = Get_int d "protocol_port"
  /\ CreatePoolMemberOpts.Weight opts = Get_int d "weight"
  /\ CreatePoolMemberOpts.SubnetID opts = Get_string d "subnet_id"
  /\ CreatePoolMemberOpts.InstanceID opts = Get_string d "instance_id"
  /\ CreatePoolMemberOpts.ID opts = Id d.

(** Position by position, [members] is the replacement of [pms]: a member
    other than the resource is copied, the resource's own member is
    rewritten from the desired configuration. *)
Definition replaces `{GoLib} (d : ResourceData) (pms : list PoolMember.t)
    (members : list CreatePoolMemberOpts.t) : Prop :=
  length members = length pms
  /\ forall (i : nat) (pm : PoolMember.t),
      pms !! i = Some pm ->
      exists opts,
        members !! i = Some opts
        /\ (PoolMember.ID pm <> Id d -> verbatim_copy pm opts)
        /\ (PoolMember.ID pm = Id d -> desired_config d opts).

(** ** What a read promises *)

(** The member fields the resource tracks locally. *)
Definition tracked_fields : list string :=
  ["address"; "protocol_port"; "weight"; "subnet_id"; "instance_id"; "operating_status"].

(** Every tracked field of [d] holds the value of the remote record [pm]. *)
Definition reflects `{GoLib} (pm : PoolMember.t) (d : ResourceData) : Prop :=
  exists ip,
    PoolMember.Address pm = Some ip
    /\ attrs d !! "address" = Some (VString (IP_String ip))
    /\ attrs d !! "protocol_port" = Some (VInt (PoolMember.ProtocolPort pm))
    /\ attrs d !! "weight" = Some (VInt (PoolMember.Weight pm))
    /\ attrs d !! "subnet_id" = Some (VString (PoolMember.SubnetID pm))
    /\ attrs d !! "instance_id" = Some (VString (PoolMember.InstanceID pm))
    /\ attrs d !! "operating_status" = Some (VString (PoolMember.OperatingStatus pm)).

(** The six assignments of the scan, from the record [pm] whose address
    pointer holds [ip]. *)
Definition overwrite `{GoLib} (d : ResourceData) (pm : PoolMember.t) (ip : net_IP)
    : ResourceData :=
  let d := Set_ d "address" (VString (IP_String ip)) in
  let d := Set_ d "protocol_port" (VInt (PoolMember.ProtocolPort pm)) in
  let d := Set_ d "weight" (VInt (PoolMember.Weight pm)) in
  let d := Set_ d "subnet_id" (VString (PoolMember.SubnetID pm)) in
  let d := Set_ d "instance_id" (VString (PoolMember.InstanceID pm)) in
  Set_ d "operating_status" (VString (PoolMember.OperatingStatus pm)).

(** The last member of the collection that has the identity [mid]. *)
Fixpoint last_match (mid : string) (members : list PoolMember.t) : option PoolMember.t :=
  match members with
  | [] => None
  | pm :: rest =>
      match last_match mid rest with
      | Some found => Some found
      | None => if String.eqb mid (PoolMember.ID pm) then Some pm else None
      end
  end.

(** The fields a read may set: the tracked ones and the two it reverts. *)
Definition read_fields : list string :=
  tracked_fields ++ ["project_id"; "region_id"].

(** * Properties *)

(** ** Validation *)

(** C7: the weight validator accepts [w] exactly when [0 <= w <= 256]; every
    other weight, [-1] and [257] among them, gets the one error diagnostic
    "Valid values: 0 to 256 got: w".  The validator is a function of the
    value alone: it has no access to the control plane. *)
Theorem validate_weight_accepts_iff (w : Z) (path : Path) :
  (validate_weight w path = [] <-> (0 <= w <= 256)%Z)
  /\ (~ (0 <= w <= 256)%Z ->
      validate_weight w path
      = [mkDiagnostic SevError ("Valid values: 0 to 256 got: " ++ fmt_d w) ""])
  /\ HasError (validate_weight (-1) path) = true
  /\ HasError (validate_weight 257 path) = true.
Proof.
  unfold validate_weight, minWeight, maxWeight.
  split; [| split; [| split; reflexivity]].
  - destruct (w >=? 0)%Z eqn:Hlo, (w <=? 256)%Z eqn:Hhi; simpl;
      (split; [try discriminate; lia | intros; try reflexivity; lia]).
  - intros Hout.
    destruct (w >=? 0)%Z eqn:Hlo, (w <=? 256)%Z eqn:Hhi; simpl; try reflexivity.
    exfalso; apply Hout; lia.
Qed.

Lemma validate_weight_accepts_iff_witness :
  validate_weight 300 [GetAttrStep "weight"]
  = [mkDiagnostic SevError "Valid values: 0 to 256 got: 300" ""].
Proof.
  apply (proj1 (proj2 (validate_weight_accepts_iff 300 [GetAttrStep "weight"]))). lia.
Defined.

(** C8: a string that [net.ParseIP] parses is accepted with no diagnostics;
    a string it does not parse is rejected with one error diagnostic, whose
    summary is the [%q] rendering of the attribute path, followed by
    " must be a valid ip, got: " and the rejected string itself. *)
Theorem validate_address_accepts_iff `{GoLib} (v : string) (key : Path) :
  (net_ParseIP v <> None -> validate_address v key = [])
  /\ (net_ParseIP v = None ->
      validate_address v key
      = [mkDiagnostic SevError (fmt_q_Path key ++ " must be a valid ip, got: " ++ v) ""]
      /\ HasError (validate_address v key) = true).
Proof.
  unfold validate_address.
  destruct (net_ParseIP v) as [ip|]; split; intros Hparse;
    try congruence; try (split; reflexivity).
Qed.

Lemma validate_address_accepts_iff_witness :
  validate_address (H := Script.lib) "10.0.0.1" [GetAttrStep "address"] = []
  /\ validate_address (H := Script.lib) "not-an-ip" [GetAttrStep "address"]
     = [mkDiagnostic SevError "address must be a valid ip, got: not-an-ip" ""].
Proof.
  split.
  - apply (proj1 (validate_address_accepts_iff (H := Script.lib) "10.0.0.1" [GetAttrStep "address"])).
    vm_compute. discriminate.
  - apply (proj2 (validate_address_accepts_iff (H := Script.lib) "not-an-ip" [GetAttrStep "address"])).
    vm_compute. reflexivity.
Defined.

(** ** Import *)

(** The importer assigns the parser's four results in the order project,
    region, member, pool, whatever the parser. *)
Lemma Importer_assigns parser (d : ResourceData) (projectID regionID : Z)
    (memberID lbPoolID : string) :
  parser (Id d) = Ok (projectID, regionID, memberID, lbPoolID) ->
  exists d',
    Importer_StateContext parser d = (d', Ok [d'])
    /\ Get_int d' "project_id" = projectID
    /\ Get_int d' "region_id" = regionID
    /\ Id d' = memberID
    /\ Get_string d' "pool_id" = lbPoolID.
Proof.
  intros Hparse. unfold Importer_StateContext. rewrite Hparse.
  eexists; split; [reflexivity |].
  repeat split.
  - unfold SetId, Get_int, Get; simpl.
    rewrite lookup_insert_ne by done. rewrite lookup_insert_ne by done.
    by rewrite lookup_insert_eq.
  - unfold SetId, Get_int, Get; simpl.
    rewrite lookup_insert_ne by done. by rewrite lookup_insert_eq.
  - unfold SetId, Get_string, Get; simpl. by rewrite lookup_insert_eq.
Qed.

(** C9: with the composite identifier "42/5/m-100/p-7" as the identity,
    import sets project to 42, region to 5, the identity to "m-100" and pool
    to "p-7": the four tokens are taken in the order project, region,
    member, pool.  An identifier the parser refuses makes import return that
    error and leaves the resource data as it was; an identifier that does
    not consist of exactly four tokens is refused. *)
Theorem import_decodes_composite_identifier :
  (forall d : ResourceData,
      Id d = "42/5/m-100/p-7" ->
      exists d',
        Importer_StateContext ImportStringParserExtended d = (d', Ok [d'])
        /\ Get_int d' "project_id" = 42%Z
        /\ Get_int d' "region_id" = 5%Z
        /\ Id d' = "m-100"
        /\ Get_string d' "pool_id" = "p-7")
  /\ (forall (d : ResourceData) (err : error),
        ImportStringParserExtended (Id d) = Err err ->
        Importer_StateContext ImportStringParserExtended d = (d, Err err))
  /\ (forall infoStr : string,
        length (split_on import_delimiter infoStr) <> 4 ->
        exists err, ImportStringParserExtended infoStr = Err err).
Proof.
  split; [| split].
  - intros d Hid. apply Importer_assigns. rewrite Hid. reflexivity.
  - intros d err Hparse. unfold Importer_StateContext. by rewrite Hparse.
  - intros infoStr Hlen. unfold ImportStringParserExtended.
    destruct (split_on import_delimiter infoStr) as [|a [|b [|c [|e [|f rest]]]]];
      simpl in Hlen; try (eexists; reflexivity).
    congruence.
Qed.

Lemma import_decodes_composite_identifier_witness :
  (exists d',
      Importer_StateContext ImportStringParserExtended
        (Script.resource "42/5/m-100/p-7" []) = (d', Ok [d'])
      /\ Get_int d' "project_id" = 42%Z
      /\ Get_int d' "region_id" = 5%Z
      /\ Id d' = "m-100"
      /\ Get_string d' "pool_id" = "p-7")
  /\ Importer_StateContext ImportStringParserExtended (Script.resource "42/5/m-100" [])
     = (Script.resource "42/5/m-100" [],
        Err (ErrOther "failed import: wrong input id: 42/5/m-100"))
  /\ (exists err, ImportStringParserExtended "42" = Err err).
Proof.
  split; [| split].
  - apply (proj1 import_decodes_composite_identifier
             (Script.resource "42/5/m-100/p-7" [])).
    reflexivity.
  - apply (proj1 (proj2 import_decodes_composite_identifier)
             (Script.resource "42/5/m-100" [])).
    vm_compute. reflexivity.
  - apply (proj2 (proj2 import_decodes_composite_identifier) "42").
    vm_compute. discriminate.
Defined.

(** ** Update: the reconciliation of the member collection *)

Section Reconciliation.
Context `{GoLib}.

(** The invariant of the loop: the slots below [i] are left alone, the slot
    of each remaining member is filled as promised. *)
Lemma update_loop_fills (d : ResourceData) (pms : list PoolMember.t) :
  forall (i : nat) (members : list CreatePoolMemberOpts.t),
    length members = i + length pms ->
    (forall pm, pm ∈ pms -> PoolMember.ID pm <> Id d -> PoolMember.Address pm <> None) ->
    exists out,
      update_loop d i pms members = Some out
      /\ length out = length members
      /\ (forall j, j < i -> out !! j = members !! j)
      /\ (forall k pm, pms !! k = Some pm ->
          exists opts,
            out !! (i + k) = Some opts
            /\ (PoolMember.ID pm <> Id d -> verbatim_copy pm opts)
            /\ (PoolMember.ID pm = Id d -> desired_config d opts)).
Proof.
  induction pms as [|pm rest IH]; intros i members Hlen Haddr; simpl.
  - exists members. repeat split; try done.
  - simpl in Hlen.
    assert (Hrest : forall pm', pm' ∈ rest -> PoolMember.ID pm' <> Id d ->
                                PoolMember.Address pm' <> None).
    { intros pm' Hin. apply Haddr. by right. }
    assert (Hi : i < length members) by lia.
    destruct (String.eqb_spec (PoolMember.ID pm) (Id d)) as [Heq|Hne]; simpl.
    + set (opts := CreatePoolMemberOpts.mk _ _ _ _ _ _).
      destruct (IH (S i) (<[i:=opts]> members)) as (out & Hout & Hl & Hlow & Hhigh);
        [rewrite length_insert; lia | exact Hrest |].
      exists out. rewrite length_insert in Hl.
      split; [exact Hout | split; [exact Hl | split]].
      * intros j Hj. rewrite Hlow by lia. apply list_lookup_insert_ne. lia.
      * intros [|k] pm' Hk; simpl in Hk.
        -- injection Hk as <-. exists opts. rewrite Nat.add_0_r, Hlow by lia.
           split; [by apply list_lookup_insert_eq |].
           split; [intros Hne; by destruct Hne | intros _; by repeat split].
        -- replace (i + S k) with (S i + k) by lia. by apply Hhigh.
    + destruct (PoolMember.Address pm) as [address|] eqn:Haddress;
        [| exfalso; eapply Haddr; [by left | exact Hne | exact Haddress]].
      set (opts := CreatePoolMemberOpts.mk _ _ _ _ _ _).
      destruct (IH (S i) (<[i:=opts]> members)) as (out & Hout & Hl & Hlow & Hhigh);
        [rewrite length_insert; lia | exact Hrest |].
      exists out. rewrite length_insert in Hl.
      split; [exact Hout | split; [exact Hl | split]].
      * intros j Hj. rewrite Hlow by lia. apply list_lookup_insert_ne. lia.
      * intros [|k] pm' Hk; simpl in Hk.
        -- injection Hk as <-. exists opts. rewrite Nat.add_0_r, Hlow by lia.
           split; [by apply list_lookup_insert_eq |].
           split; [intros _; by repeat split | intros Heq; by destruct Hne].
        -- replace (i + S k) with (S i + k) by lia. by apply Hhigh.
Qed.

(** The loop stops at the first member, other than the resource's own, whose
    address pointer is nil. *)
Lemma update_loop_nil_address (d : ResourceData) (pms : list PoolMember.t) :
  forall (i : nat) (members : list CreatePoolMemberOpts.t),
    (exists pm, pm ∈ pms /\ PoolMember.ID pm <> Id d /\ PoolMember.Address pm = None) ->
    update_loop d i pms members = None.
Proof.
  induction pms as [|pm rest IH]; intros i members (bad & Hin & Hne & Hnil).
  - by apply elem_of_nil in Hin.
  - simpl. apply elem_of_cons in Hin as [->|Hin].
    + destruct (String.eqb_spec (PoolMember.ID pm) (Id d)) as [Heq|_]; [done |].
      simpl. by rewrite Hnil.
    + destruct (String.eqb_spec (PoolMember.ID pm) (Id d)) as [Heq|Hne']; simpl.
      * apply IH. eauto.
      * destruct (PoolMember.Address pm); [apply IH; eauto | done].
Qed.

Lemma update_members_replaces (d : ResourceData) (pms : list PoolMember.t) :
  (forall pm, pm ∈ pms -> PoolMember.ID pm <> Id d -> PoolMember.Address pm <> None) ->
  exists members, update_members d pms = Some members /\ replaces d pms members.
Proof.
  intros Haddr. unfold update_members.
  destruct (update_loop_fills d pms 0 (replicate (length pms) CreatePoolMemberOpts.zero))
    as (out & Hout & Hl & _ & Hhigh); [by rewrite length_replicate | exact Haddr |].
  exists out. split; [exact Hout |]. split.
  - by rewrite Hl, length_replicate.
  - intros i pm Hi. exact (Hhigh i pm Hi).
Qed.

(** X6: the reconciliation produces no collection exactly when some member
    other than the resource's own comes without an address. *)
Lemma update_members_panics_iff (d : ResourceData) (pms : list PoolMember.t) :
  update_members d pms = None
  <-> exists pm, pm ∈ pms /\ PoolMember.ID pm <> Id d /\ PoolMember.Address pm = None.
Proof.
  split; [| apply update_loop_nil_address].
  intros Hrun.
  destruct (decide (Exists (fun pm => PoolMember.ID pm <> Id d
                                      /\ PoolMember.Address pm = None) pms))
    as [Hbad|Hgood].
  - apply Exists_exists in Hbad as (pm & Hin & Hpm). eauto.
  - destruct (update_members_replaces d pms) as (members & Hsome & _); [| congruence].
    intros pm Hin Hne Hnil. apply Hgood, Exists_exists. eauto.
Qed.

End Reconciliation.

(** C1 (amended): when every member other than the resource's own carries
    an address (its pointer is not nil), the reconciliation produces a
    collection of the length and positional order of the current one; a
    member whose identity differs from the resource's is copied verbatim
    (address, port, weight, subnet, instance, identity), and a member whose
    identity is the resource's gets the desired address, port, weight,
    subnet and instance with the existing identity. *)
Theorem update_members_rewrites_target_only `{GoLib}
    (d : ResourceData) (pms : list PoolMember.t) :
  (forall pm, pm ∈ pms -> PoolMember.ID pm <> Id d -> PoolMember.Address pm <> None) ->
  exists members,
    update_members d pms = Some members
    /\ length members = length pms
    /\ forall (i : nat) (pm : PoolMember.t),
        pms !! i = Some pm ->
        exists opts,
          members !! i = Some opts
          /\ (PoolMember.ID pm <> Id d -> verbatim_copy pm opts)
          /\ (PoolMember.ID pm = Id d -> desired_config d opts).
Proof.
  intros Haddr.
  destruct (update_members_replaces d pms Haddr) as (members & Hrun & Hlen & Hslots).
  exists members. auto.
Qed.

Lemma update_members_rewrites_target_only_witness :
  exists members,
    update_members (H := Script.lib) (Script.desired "2")
      [Script.member_A; Script.member_B; Script.member_C] = Some members
    /\ length members = 3
    /\ forall (i : nat) (pm : PoolMember.t),
        [Script.member_A; Script.member_B; Script.member_C] !! i = Some pm ->
        exists opts,
          members !! i = Some opts
          /\ (PoolMember.ID pm <> "2" -> verbatim_copy pm opts)
          /\ (PoolMember.ID pm = "2" ->
              desired_config (H := Script.lib) (Script.desired "2") opts).
Proof.
  apply (update_members_rewrites_target_only (H := Script.lib) (Script.desired "2")
           [Script.member_A; Script.member_B; Script.member_C]).
  intros pm Hin _.
  repeat (apply elem_of_cons in Hin as [->|Hin]); try discriminate.
  by apply elem_of_nil in Hin.
Defined.

(** The spec's example, run: B gets weight 42, A and C pass through. *)
Example update_members_spec_example :
  map CreatePoolMemberOpts.Weight <$>
    update_members (H := Script.lib) (Script.desired "2")
      [Script.member_A; Script.member_B; Script.member_C]
  = Some [5%Z; 42%Z; 1%Z]
  /\ map CreatePoolMemberOpts.ID <$>
       update_members (H := Script.lib) (Script.desired "2")
         [Script.member_A; Script.member_B; Script.member_C]
     = Some ["1"; "2"; "3"].
Proof. split; vm_compute; reflexivity. Qed.

(** As the claim is written, for every member collection: a member other
    than the resource's own that comes without an address stops the
    reconciliation at the dereference, and no collection is produced. *)
Lemma update_members_rewrites_target_only_counterexample :
  ~ exists members,
      update_members (H := Script.lib) (Script.desired "2")
        [Script.member_A; Script.unaddressed "3"] = Some members
      /\ length members = 2.
Proof. intros (members & Hrun & _). vm_compute in Hrun. discriminate. Qed.

(** When no member is the resource's own, the loop never reads the desired
    configuration: resource data of the same identity give the same run. *)
Lemma update_loop_ignores_config `{GoLib} (d d' : ResourceData) (pms : list PoolMember.t) :
  Id d' = Id d ->
  (forall pm, pm ∈ pms -> PoolMember.ID pm <> Id d) ->
  forall (i : nat) (members : list CreatePoolMemberOpts.t),
    update_loop d' i pms members = update_loop d i pms members.
Proof.
  intros Hid. induction pms as [|pm rest IH]; intros Hnone i members; simpl; [done |].
  rewrite Hid.
  destruct (String.eqb_spec (PoolMember.ID pm) (Id d)) as [Heq|Hne]; simpl.
  - exfalso. eapply Hnone; [by left | exact Heq].
  - destruct (PoolMember.Address pm); [| done].
    apply IH. intros pm' Hin. apply Hnone. by right.
Qed.

(** C5 (amended): when no member's identity is the target identity and
    every member carries an address (its pointer is not nil), the
    reconciliation returns a collection in which every member is the verbatim
    copy of the corresponding current member; the desired configuration is
    substituted nowhere (any other configuration under the same identity
    gives the same collection), and nothing is rejected. *)
Theorem update_members_without_target `{GoLib}
    (d : ResourceData) (pms : list PoolMember.t) :
  (forall pm, pm ∈ pms -> PoolMember.ID pm <> Id d) ->
  (forall pm, pm ∈ pms -> PoolMember.Address pm <> None) ->
  exists members,
    update_members d pms = Some members
    /\ length members = length pms
    /\ (forall (i : nat) (pm : PoolMember.t),
          pms !! i = Some pm ->
          exists opts, members !! i = Some opts /\ verbatim_copy pm opts)
    /\ (forall d' : ResourceData, Id d' = Id d -> update_members d' pms = Some members).
Proof.
  intros Hnone Haddr.
  destruct (update_members_replaces d pms) as (members & Hrun & Hlen & Hslots);
    [intros pm Hin _; by apply Haddr |].
  exists members. split; [exact Hrun | split; [exact Hlen | split]].
  - intros i pm Hi. destruct (Hslots i pm Hi) as (opts & Hopts & Hcopy & _).
    exists opts. split; [exact Hopts |].
    apply Hcopy. apply Hnone. eapply list_elem_of_lookup_2. exact Hi.
  - intros d' Hid. unfold update_members in *.
    by rewrite (update_loop_ignores_config d d' pms Hid Hnone).
Qed.

Lemma update_members_without_target_witness :
  exists members,
    update_members (H := Script.lib) (Script.desired "9")
      [Script.member_A; Script.member_C] = Some members
    /\ length members = 2
    /\ (forall (i : nat) (pm : PoolMember.t),
          [Script.member_A; Script.member_C] !! i = Some pm ->
          exists opts, members !! i = Some opts /\ verbatim_copy pm opts)
    /\ (forall d' : ResourceData,
          Id d' = "9" ->
          update_members (H := Script.lib) d' [Script.member_A; Script.member_C]
          = Some members).
Proof.
  apply (update_members_without_target (H := Script.lib) (Script.desired "9")
           [Script.member_A; Script.member_C]).
  - intros pm Hin.
    repeat (apply elem_of_cons in Hin as [->|Hin]); try discriminate.
    by apply elem_of_nil in Hin.
  - intros pm Hin.
    repeat (apply elem_of_cons in Hin as [->|Hin]); try discriminate.
    by apply elem_of_nil in Hin.
Defined.

(** As the claim is written, for every collection without the target: none
    of the two members is the resource "9", one of them comes without an
    address, and the reconciliation returns no collection at all. *)
Lemma update_members_without_target_counterexample :
  (forall pm, pm ∈ [Script.unaddressed "1"; Script.member_C] ->
              PoolMember.ID pm <> Id (Script.desired "9"))
  /\ update_members (H := Script.lib) (Script.desired "9")
       [Script.unaddressed "1"; Script.member_C] = None.
Proof.
  split; [| vm_compute; reflexivity].
  intros pm Hin.
  repeat (apply elem_of_cons in Hin as [->|Hin]); try discriminate.
  by apply elem_of_nil in Hin.
Qed.

(** ** Read *)

(** Membership in a list written out: one case per element. *)
Ltac cases_of_elem Hin :=
  repeat (apply elem_of_cons in Hin as [Hin|Hin]);
  [.. | by apply elem_of_nil in Hin].

Ltac not_listed :=
  let Hin := fresh "Hin" in
  intros Hin; cases_of_elem Hin; discriminate.

Section Reading.
Context `{GoLib} {Remote Client TaskInfo : Type} `{!Backend Remote Client TaskInfo}.

(** [revertState] sets none but the listed fields, and never the identity. *)
Lemma revertState_frame (fields : list string) :
  forall d : ResourceData,
    Id (revertState d fields) = Id d
    /\ Timeouts (revertState d fields) = Timeouts d
    /\ forall key, key ∉ fields -> attrs (revertState d fields) !! key = attrs d !! key.
Proof.
  unfold revertState.
  induction fields as [|field rest IH]; intros d; simpl; [done |].
  destruct (IH (match GetChange_old d field with
                | Some oldValue => Set_ d field oldValue
                | None => d
                end)) as (Hid & Htm & Hattrs).
  rewrite Hid, Htm. split; [| split].
  - by destruct (GetChange_old d field).
  - by destruct (GetChange_old d field).
  - intros key Hkey. apply not_elem_of_cons in Hkey as [Hne Hrest].
    rewrite Hattrs by exact Hrest.
    destruct (GetChange_old d field); [| done].
    simpl. by rewrite lookup_insert_ne.
Qed.

(** Either some member has the identity, or none has. *)
Lemma match_or_none (members : list PoolMember.t) (mid : string) :
  (exists pm, pm ∈ members /\ PoolMember.ID pm = mid)
  \/ (forall pm, pm ∈ members -> PoolMember.ID pm <> mid).
Proof.
  induction members as [|pm rest [(pm' & Hin & Hpm)|Hnone]].
  - right. intros pm Hin. by apply elem_of_nil in Hin.
  - left. exists pm'. split; [by right | done].
  - destruct (decide (PoolMember.ID pm = mid)) as [Heq|Hne].
    + left. exists pm. split; [by left | done].
    + right. intros pm' Hin. apply elem_of_cons in Hin as [->|Hin]; auto.
Qed.

(** A scan that meets no member of the identity leaves the data alone. *)
Lemma read_members_no_match (mid : string) (members : list PoolMember.t) :
  (forall pm, pm ∈ members -> PoolMember.ID pm <> mid) ->
  forall d : ResourceData, read_members mid members d = Completed d.
Proof.
  induction members as [|pm rest IH]; intros Hnone d; simpl; [done |].
  destruct (String.eqb_spec mid (PoolMember.ID pm)) as [Heq|Hne].
  - exfalso. eapply Hnone; [by left | done].
  - apply IH. intros pm' Hin. apply Hnone. by right.
Qed.

(** A scan whose matching members all carry an address runs to its end: the
    identity is kept, and when a member matches the tracked fields are those
    of a matching member (the last one, the loop having no [break]). *)
Lemma read_members_match (mid : string) (members : list PoolMember.t) :
  (forall pm, pm ∈ members -> PoolMember.ID pm = mid -> PoolMember.Address pm <> None) ->
  forall d : ResourceData,
    exists d',
      read_members mid members d = Completed d'
      /\ Id d' = Id d
      /\ ((exists pm, pm ∈ members /\ PoolMember.ID pm = mid) ->
          exists pm, pm ∈ members /\ PoolMember.ID pm = mid /\ reflects pm d').
Proof.
  induction members as [|pm rest IH]; intros Haddr d; simpl.
  - exists d. repeat split; try done. intros (pm & Hin & _). by apply elem_of_nil in Hin.
  - assert (Hrest : forall pm', pm' ∈ rest -> PoolMember.ID pm' = mid ->
                                PoolMember.Address pm' <> None).
    { intros pm' Hin. apply Haddr. by right. }
    destruct (String.eqb_spec mid (PoolMember.ID pm)) as [Heq|Hne].
    + destruct (PoolMember.Address pm) as [ip|] eqn:Hip;
        [| exfalso; eapply Haddr; [by left | done | exact Hip]].
      set (d1 := Set_ (Set_ (Set_ (Set_ (Set_ (Set_ d _ _) _ _) _ _) _ _) _ _) _ _).
      destruct (match_or_none rest mid) as [Hsome|Hnone].
      * destruct (IH Hrest d1) as (d' & Hrun & Hid & Hrefl).
        exists d'. split; [exact Hrun | split; [by rewrite Hid |]].
        intros _. destruct (Hrefl Hsome) as (pm' & Hin & Hpm & Hr).
        exists pm'. split; [by right | done].
      * exists d1. split; [by apply read_members_no_match | split; [done |]].
        intros _. exists pm. split; [by left | split; [done |]].
        exists ip. split; [exact Hip |].
        subst d1; unfold Set_; simpl.
        repeat split;
          repeat (first [ rewrite lookup_insert_eq; reflexivity
                        | rewrite lookup_insert_ne by done ]).
    + destruct (IH Hrest d) as (d' & Hrun & Hid & Hrefl).
      exists d'. split; [exact Hrun | split; [exact Hid |]].
      intros (pm' & Hin & Hpm).
      apply elem_of_cons in Hin as [->|Hin]; [by destruct Hne |].
      destruct Hrefl as (pm'' & Hin' & Hpm' & Hr); [eauto |].
      exists pm''. split; [by right | done].
Qed.

End Reading.

(** C6 (amended): in a read that fetched the pool, when no member has the
    resource's identity none of the tracked fields (address, port, weight,
    subnet, instance, operating status) is modified and the identity is
    kept; when a member matches and every matching member carries an address
    (its pointer is not nil), all of those fields are overwritten from a
    matching remote record, and the identity is kept. *)
Theorem read_overwrites_only_on_match `{GoLib} {Remote Client TaskInfo : Type}
    `{!Backend Remote Client TaskInfo}
    (d : ResourceData) (r r1 r2 : Remote) (client : Client) (pool : Pool.t) :
  CreateClient d r = (Ok client, r1) ->
  lbpools_Get client (Get_string d "pool_id") r1 = (Ok pool, r2) ->
  ((forall pm, pm ∈ Pool.Members pool -> PoolMember.ID pm <> Id d) ->
   exists d',
     resourceLBMemberRead d r = Return [] d' r2
     /\ Id d' = Id d
     /\ forall key, key ∈ tracked_fields -> attrs d' !! key = attrs d !! key)
  /\ ((exists pm, pm ∈ Pool.Members pool /\ PoolMember.ID pm = Id d) ->
      (forall pm, pm ∈ Pool.Members pool -> PoolMember.ID pm = Id d ->
                  PoolMember.Address pm <> None) ->
      exists d' pm,
        resourceLBMemberRead d r = Return [] d' r2
        /\ Id d' = Id d
        /\ pm ∈ Pool.Members pool
        /\ PoolMember.ID pm = Id d
        /\ reflects pm d').
Proof.
  intros Hclient Hpool. unfold resourceLBMemberRead. rewrite Hclient, Hpool.
  split.
  - intros Hnone. rewrite (read_members_no_match _ _ Hnone).
    destruct (revertState_frame ["project_id"; "region_id"] d) as (Hid & _ & Hattrs).
    eexists. split; [reflexivity | split; [exact Hid |]].
    intros key Hkey. apply Hattrs. unfold tracked_fields in Hkey.
    cases_of_elem Hkey; subst key; not_listed.
  - intros Hsome Haddr.
    destruct (read_members_match (Id d) (Pool.Members pool) Haddr d)
      as (d1 & Hrun & Hid & Hrefl).
    destruct (Hrefl Hsome) as (pm & Hin & Hpm & ip & Hip & Hfields).
    destruct (revertState_frame ["project_id"; "region_id"] d1) as (Hid' & _ & Hattrs).
    rewrite Hrun. eexists; exists pm.
    split; [reflexivity | split; [by rewrite Hid' | split; [exact Hin | split; [exact Hpm |]]]].
    exists ip. split; [exact Hip |].
    rewrite !Hattrs by not_listed. exact Hfields.
Qed.

Lemma read_overwrites_only_on_match_witness :
  (exists d',
      resourceLBMemberRead (H := Script.lib) (Backend0 := Script.backend) (Script.desired "9")
        (Script.plane [] [Ok (Script.pool_of [Script.member_A; Script.member_B])] [])
      = Return [] d' (Script.plane [] [] [])
      /\ Id d' = "9"
      /\ forall key, key ∈ tracked_fields ->
                     attrs d' !! key = attrs (Script.desired "9") !! key)
  /\ (exists d' pm,
        resourceLBMemberRead (H := Script.lib) (Backend0 := Script.backend) (Script.desired "2")
          (Script.plane [] [Ok (Script.pool_of [Script.member_A; Script.member_B])] [])
        = Return [] d' (Script.plane [] [] [])
        /\ Id d' = "2"
        /\ pm ∈ [Script.member_A; Script.member_B]
        /\ PoolMember.ID pm = "2"
        /\ reflects (H := Script.lib) pm d').
Proof.
  split.
  - apply (proj1 (read_overwrites_only_on_match (H := Script.lib) (Backend0 := Script.backend)
                    (Script.desired "9")
                    (Script.plane [] [Ok (Script.pool_of [Script.member_A; Script.member_B])] [])
                    (Script.plane [] [Ok (Script.pool_of [Script.member_A; Script.member_B])] [])
                    (Script.plane [] [] []) ()
                    (Script.pool_of [Script.member_A; Script.member_B])
                    eq_refl eq_refl)).
    intros pm Hin.
    repeat (apply elem_of_cons in Hin as [->|Hin]); try discriminate.
    by apply elem_of_nil in Hin.
  - apply (proj2 (read_overwrites_only_on_match (H := Script.lib) (Backend0 := Script.backend)
                    (Script.desired "2")
                    (Script.plane [] [Ok (Script.pool_of [Script.member_A; Script.member_B])] [])
                    (Script.plane [] [Ok (Script.pool_of [Script.member_A; Script.member_B])] [])
                    (Script.plane [] [] []) ()
                    (Script.pool_of [Script.member_A; Script.member_B])
                    eq_refl eq_refl)).
    + exists Script.member_B. split; [right; left | reflexivity].
    + intros pm Hin.
      repeat (apply elem_of_cons in Hin as [->|Hin]); try discriminate.
      by apply elem_of_nil in Hin.
Defined.

(** As the claim is written, whenever a match exists: the pool lists the
    resource's own member without an address; the read stops at the
    dereference and overwrites no field. *)
Lemma read_overwrites_only_on_match_counterexample :
  (exists pm, pm ∈ [Script.member_A; Script.unaddressed "2"]
              /\ PoolMember.ID pm = Id (Script.desired "2"))
  /\ resourceLBMemberRead (H := Script.lib) (Backend0 := Script.backend) (Script.desired "2")
       (Script.plane [] [Ok (Script.pool_of [Script.member_A; Script.unaddressed "2"])] [])
     = Panic NilDereference (Script.desired "2") (Script.plane [] [] []).
Proof.
  split; [| vm_compute; reflexivity].
  exists (Script.unaddressed "2"). split; [right; left | reflexivity].
Qed.

(** ** Create, update and delete over any task poller *)

Section Operations.
Context `{GoLib} {Remote Client TaskInfo : Type} `{!Backend Remote Client TaskInfo}.
Variable WaitTaskAndReturnResult : TaskPoller (Remote := Remote) (Client := Client).

Lemma read_members_keeps_identity (mid : string) (members : list PoolMember.t) :
  forall d : ResourceData,
    match read_members mid members d with
    | Completed d' | Aborted d' => Id d' = Id d
    end.
Proof.
  induction members as [|pm rest IH]; intros d; simpl; [done |].
  destruct (mid =? PoolMember.ID pm)%string; [| apply IH].
  destruct (PoolMember.Address pm) as [ip|]; [| done].
  match goal with |- context [read_members mid rest ?d1] => specialize (IH d1) end.
  by destruct (read_members mid rest _).
Qed.

(** A read never sets the identity, however it ends. *)
Lemma read_keeps_identity (d : ResourceData) (r : Remote) :
  Id (final_data (resourceLBMemberRead d r)) = Id d.
Proof.
  unfold resourceLBMemberRead.
  destruct (CreateClient d r) as [[client|err] r1]; [| done].
  destruct (lbpools_Get client (Get_string d "pool_id") r1) as [[pool|err] r2]; [| done].
  pose proof (read_members_keeps_identity (Id d) (Pool.Members pool) d) as Hid.
  destruct (read_members (Id d) (Pool.Members pool) d) as [d1|d1]; [| exact Hid].
  destruct (revertState_frame ["project_id"; "region_id"] d1) as (Hrev & _).
  cbv zeta. unfold final_data. by rewrite Hrev.
Qed.

(** The only panic of a read is the nil dereference. *)
Lemma read_panics_on_nil_only (d d' : ResourceData) (r r' : Remote) (reason : PanicReason) :
  resourceLBMemberRead d r = Panic reason d' r' -> reason = NilDereference.
Proof.
  unfold resourceLBMemberRead. intros Hrun.
  repeat case_match; by inversion Hrun.
Qed.

(** *** Create *)

(** C4: a create in which client construction, the creation request or the
    task poller (task polling and identity extraction, which the poller
    runs) fails returns that error with the resource data, identity
    included, as it was; the retriever fails whenever the task cannot be
    fetched or the identity cannot be extracted; a create that returns an
    error diagnostic has changed nothing; and the identity differs from the
    one at entry only if the poller returned an extracted identity, which
    is then the identity of the resource. *)
Theorem create_failure_assigns_no_identity (d : ResourceData) (r : Remote) :
  let create := resourceLBMemberCreate WaitTaskAndReturnResult d r in
  let timeout := d_Timeout d TimeoutCreate in
  (forall err r1,
      CreateClient d r = (Err err, r1) -> create = Return (diag_FromErr err) d r1)
  /\ (forall client r1 err r2,
        CreateClient d r = (Ok client, r1) ->
        lbpools_CreateMember client (Get_string d "pool_id") (create_opts d)
          (request_opts (GetConflictRetryConfig timeout)) r1 = (Err err, r2) ->
        create = Return (diag_FromErr err) d r2)
  /\ (forall client r1 results r2 taskID rest err r3,
        CreateClient d r = (Ok client, r1) ->
        lbpools_CreateMember client (Get_string d "pool_id") (create_opts d)
          (request_opts (GetConflictRetryConfig timeout)) r1 = (Ok results, r2) ->
        Tasks results = taskID :: rest ->
        WaitTaskAndReturnResult client taskID true timeout (create_retriever client) r2
        = (Err err, r3) ->
        create = Return (diag_FromErr err) d r3)
  /\ (forall client task r0 r1,
        (forall err, tasks_Get client task r0 = (Err err, r1) ->
                     exists err', create_retriever client task r0 = (Err err', r1))
        /\ (forall info err,
              tasks_Get client task r0 = (Ok info, r1) ->
              lbpools_ExtractPoolMemberIDFromTask info = Err err ->
              exists err', create_retriever client task r0 = (Err err', r1)))
  /\ (forall diags d' r',
        create = Return diags d' r' -> HasError diags = true -> d' = d)
  /\ (Id (final_data create) <> Id d ->
      exists client taskID r2 r3 pmID,
        WaitTaskAndReturnResult client taskID true timeout (create_retriever client) r2
        = (Ok (AnyString pmID), r3)
        /\ Id (final_data create) = pmID).
Proof.
  cbv zeta. unfold resourceLBMemberCreate.
  split; [| split; [| split; [| split; [| split]]]].
  - intros err r1 Hclient. by rewrite Hclient.
  - intros client r1 err r2 Hclient Hcreate. by rewrite Hclient, Hcreate.
  - intros client r1 results r2 taskID rest err r3 Hclient Hcreate Htasks Hwait.
    by rewrite Hclient, Hcreate, Htasks, Hwait.
  - intros client task r0 r1. unfold create_retriever. split.
    + intros err Hget. rewrite Hget. eauto.
    + intros info err Hget Hextract. rewrite Hget, Hextract. eauto.
  - intros diags d' r' Hrun Herr.
    repeat case_match; inversion Hrun; subst; try reflexivity; discriminate.
  - intros Hchanged.
    destruct (CreateClient d r) as [[client|err] r1]; [| done].
    destruct (lbpools_CreateMember _ _ _ _ r1) as [[results|err] r2]; [| done].
    destruct (Tasks results) as [|taskID rest]; [done |].
    destruct (WaitTaskAndReturnResult _ _ _ _ _ r2) as [[[|pmID]|err] r3] eqn:Hwait;
      [done | | done].
    exists client, taskID, r2, r3, pmID. split; [exact Hwait |].
    pose proof (read_keeps_identity (SetId d pmID) r3) as Hread.
    by destruct (resourceLBMemberRead (SetId d pmID) r3).
Qed.

(** *** Delete *)

(** C2: when the remove-member call fails with [ErrDefault404], delete
    returns no diagnostic and the identity is set to the empty string; when
    it fails with any other error, delete returns that error and the
    resource data, identity included, is as it was. *)
Theorem delete_not_found_is_success (d : ResourceData) (r r1 r2 : Remote)
    (client : Client) (err : error) :
  CreateClient d r = (Ok client, r1) ->
  lbpools_DeleteMember client (Get_string d "pool_id") (Id d)
    (request_opts (GetConflictRetryConfig (d_Timeout d TimeoutDelete))) r1 = (Err err, r2) ->
  ((exists msg, err = ErrDefault404 msg) ->
   exists d',
     resourceLBMemberDelete WaitTaskAndReturnResult d r = Return [] d' r2
     /\ Id d' = ""
     /\ attrs d' = attrs d)
  /\ ((forall msg, err <> ErrDefault404 msg) ->
      resourceLBMemberDelete WaitTaskAndReturnResult d r = Return (diag_FromErr err) d r2
      /\ HasError (diag_FromErr err) = true).
Proof.
  intros Hclient Hdelete. unfold resourceLBMemberDelete. rewrite Hclient, Hdelete.
  split.
  - intros (msg & ->). exists (SetId d ""). by repeat split.
  - intros Hother. split; [| reflexivity].
    destruct err as [msg| | |]; [by destruct (Hother msg) | done..].
Qed.

(** *** The first task of the response *)

(** C10: each of create, update and delete takes element 0 of the task list
    that a successful mutating call returned, without a check.  The
    operation panics with an index out of range exactly when that call
    succeeded with an empty task list; the resource data is then as it
    was. *)
Theorem first_task_needs_nonempty_list (d : ResourceData) (r : Remote) :
  (forall d' r',
      resourceLBMemberCreate WaitTaskAndReturnResult d r = Panic IndexOutOfRange d' r'
      <-> exists client r1 results,
            CreateClient d r = (Ok client, r1)
            /\ lbpools_CreateMember client (Get_string d "pool_id") (create_opts d)
                 (request_opts (GetConflictRetryConfig (d_Timeout d TimeoutCreate))) r1
               = (Ok results, r')
            /\ Tasks results = []
            /\ d' = d)
  /\ (forall d' r',
        resourceLBMemberUpdate WaitTaskAndReturnResult d r = Panic IndexOutOfRange d' r'
        <-> exists client r1 pool r2 members results,
              CreateClient d r = (Ok client, r1)
              /\ lbpools_Get client (Get_string d "pool_id") r1 = (Ok pool, r2)
              /\ update_members d (Pool.Members pool) = Some members
              /\ lbpools_Update client (Pool.ID pool)
                   (UpdateOpts.mk (Pool.Name pool) members)
                   (request_opts (GetConflictRetryConfig (d_Timeout d TimeoutUpdate))) r2
                 = (Ok results, r')
              /\ Tasks results = []
              /\ d' = d)
  /\ (forall d' r',
        resourceLBMemberDelete WaitTaskAndReturnResult d r = Panic IndexOutOfRange d' r'
        <-> exists client r1 results,
              CreateClient d r = (Ok client, r1)
              /\ lbpools_DeleteMember client (Get_string d "pool_id") (Id d)
                   (request_opts (GetConflictRetryConfig (d_Timeout d TimeoutDelete))) r1
                 = (Ok results, r')
              /\ Tasks results = []
              /\ d' = d).
Proof.
  split; [| split]; intros d' r'; split.
  - unfold resourceLBMemberCreate. intros Hrun.
    destruct (CreateClient d r) as [[client|err] r1]; [| done].
    destruct (lbpools_CreateMember _ _ _ _ r1) as [[results|err] r2] eqn:Hcreate; [| done].
    destruct (Tasks results) as [|taskID rest] eqn:Htasks.
    { inversion Hrun; subst. exists client, r1, results. by rewrite Hcreate. }
    destruct (WaitTaskAndReturnResult _ _ _ _ _ r2) as [[[|pmID]|err] r3]; try done.
    destruct (resourceLBMemberRead (SetId d pmID) r3) as [|reason d1 r4] eqn:Hread; [done |].
    inversion Hrun; subst. by apply read_panics_on_nil_only in Hread.
  - intros (client & r1 & results & Hclient & Hcreate & Htasks & ->).
    unfold resourceLBMemberCreate. by rewrite Hclient, Hcreate, Htasks.
  - unfold resourceLBMemberUpdate. intros Hrun.
    destruct (CreateClient d r) as [[client|err] r1]; [| done].
    destruct (lbpools_Get _ _ r1) as [[pool|err] r2] eqn:Hpool; [| done].
    destruct (update_members d (Pool.Members pool)) as [members|] eqn:Hmembers; [| done].
    destruct (lbpools_Update _ _ _ _ r2) as [[results|err] r3] eqn:Hupdate; [| done].
    destruct (Tasks results) as [|taskID rest] eqn:Htasks.
    { inversion Hrun; subst. exists client, r1, pool, r2, members, results.
      by rewrite Hpool, Hupdate. }
    destruct (WaitTaskAndReturnResult _ _ _ _ _ r3) as [[result|err] r4]; [| done].
    by apply read_panics_on_nil_only in Hrun.
  - intros (client & r1 & pool & r2 & members & results
            & Hclient & Hpool & Hmembers & Hupdate & Htasks & ->).
    unfold resourceLBMemberUpdate. by rewrite Hclient, Hpool, Hmembers, Hupdate, Htasks.
  - unfold resourceLBMemberDelete. intros Hrun.
    destruct (CreateClient d r) as [[client|err] r1]; [| done].
    destruct (lbpools_DeleteMember _ _ _ _ r1) as [[results|err] r2] eqn:Hdelete;
      [| by destruct err].
    destruct (Tasks results) as [|taskID rest] eqn:Htasks.
    { inversion Hrun; subst. exists client, r1, results. by rewrite Hdelete. }
    by destruct (WaitTaskAndReturnResult _ _ _ _ _ r2) as [[result|err] r3].
  - intros (client & r1 & results & Hclient & Hdelete & Htasks & ->).
    unfold resourceLBMemberDelete. by rewrite Hclient, Hdelete, Htasks.
Qed.

End Operations.

Lemma create_failure_assigns_no_identity_witness :
  resourceLBMemberCreate (H := Script.lib) (Backend0 := Script.backend) Script.immediate
    (Script.desired "")
    (Script.mk (Err (ErrOther "no credentials")) (Ok (mkTaskResults ["t-1"])) [] [])
  = Return (diag_FromErr (ErrOther "no credentials")) (Script.desired "")
      (Script.mk (Err (ErrOther "no credentials")) (Ok (mkTaskResults ["t-1"])) [] [])
  /\ resourceLBMemberCreate (H := Script.lib) (Backend0 := Script.backend) Script.immediate
       (Script.desired "")
       (Script.plane ["t-1"] [] [Ok (Script.mk_task_info TaskFinished (Err (ErrOther "no member")))])
     = Return (diag_FromErr (ErrOther "cannot retrieve LBMember ID from task info: no member"))
         (Script.desired "") (Script.plane ["t-1"] [] []).
Proof.
  split.
  - apply (proj1 (create_failure_assigns_no_identity (H := Script.lib)
                    (Backend0 := Script.backend) Script.immediate (Script.desired "")
                    (Script.mk (Err (ErrOther "no credentials"))
                       (Ok (mkTaskResults ["t-1"])) [] []))).
    reflexivity.
  - apply (proj1 (proj2 (proj2 (create_failure_assigns_no_identity (H := Script.lib)
                    (Backend0 := Script.backend) Script.immediate (Script.desired "")
                    (Script.plane ["t-1"] []
                       [Ok (Script.mk_task_info TaskFinished (Err (ErrOther "no member")))]))))
             ()
             (Script.plane ["t-1"] []
                [Ok (Script.mk_task_info TaskFinished (Err (ErrOther "no member")))])
             (mkTaskResults ["t-1"])
             (Script.plane ["t-1"] []
                [Ok (Script.mk_task_info TaskFinished (Err (ErrOther "no member")))])
             "t-1" []); reflexivity.
Defined.

(** A create that runs to its end: the identity is the one extracted from
    the finished task, and the tracked fields are those of the pool. *)
Example create_adopts_extracted_identity :
  exists d',
    resourceLBMemberCreate (H := Script.lib) (Backend0 := Script.backend) Script.immediate
      (Script.desired "")
      (Script.plane ["t-1"] [Ok (Script.pool_of [Script.member_A; Script.member_B])]
         [Ok (Script.mk_task_info TaskFinished (Ok "2"))])
    = Return [] d' (Script.plane ["t-1"] [] [])
    /\ Id d' = "2"
    /\ Get_int d' "weight" = 9%Z.
Proof. eexists. split; [vm_compute; reflexivity | split; reflexivity]. Qed.

Lemma delete_not_found_is_success_witness :
  (exists d',
      resourceLBMemberDelete (Backend0 := Script.backend) Script.immediate
        (Script.desired "2")
        (Script.mk (Ok ()) (Err (ErrDefault404 "member not found")) [] [])
      = Return [] d' (Script.mk (Ok ()) (Err (ErrDefault404 "member not found")) [] [])
      /\ Id d' = ""
      /\ attrs d' = attrs (Script.desired "2"))
  /\ resourceLBMemberDelete (Backend0 := Script.backend) Script.immediate
       (Script.desired "2")
       (Script.mk (Ok ()) (Err (ErrOther "bad gateway")) [] [])
     = Return (diag_FromErr (ErrOther "bad gateway")) (Script.desired "2")
         (Script.mk (Ok ()) (Err (ErrOther "bad gateway")) [] []).
Proof.
  split.
  - apply (proj1 (delete_not_found_is_success (Backend0 := Script.backend) Script.immediate
                    (Script.desired "2")
                    (Script.mk (Ok ()) (Err (ErrDefault404 "member not found")) [] [])
                    (Script.mk (Ok ()) (Err (ErrDefault404 "member not found")) [] [])
                    (Script.mk (Ok ()) (Err (ErrDefault404 "member not found")) [] [])
                    () (ErrDefault404 "member not found") eq_refl eq_refl)).
    by exists "member not found".
  - apply (proj2 (delete_not_found_is_success (Backend0 := Script.backend) Script.immediate
                    (Script.desired "2")
                    (Script.mk (Ok ()) (Err (ErrOther "bad gateway")) [] [])
                    (Script.mk (Ok ()) (Err (ErrOther "bad gateway")) [] [])
                    (Script.mk (Ok ()) (Err (ErrOther "bad gateway")) [] [])
                    () (ErrOther "bad gateway") eq_refl eq_refl)).
    intros msg. discriminate.
Defined.

Lemma first_task_needs_nonempty_list_witness :
  resourceLBMemberCreate (H := Script.lib) (Backend0 := Script.backend) Script.immediate
    (Script.desired "") (Script.plane [] [] [])
  = Panic IndexOutOfRange (Script.desired "") (Script.plane [] [] [])
  /\ resourceLBMemberUpdate (H := Script.lib) (Backend0 := Script.backend) Script.immediate
       (Script.desired "2")
       (Script.plane [] [Ok (Script.pool_of [Script.member_A; Script.member_B])] [])
     = Panic IndexOutOfRange (Script.desired "2") (Script.plane [] [] [])
  /\ resourceLBMemberDelete (Backend0 := Script.backend) Script.immediate
       (Script.desired "2") (Script.plane [] [] [])
     = Panic IndexOutOfRange (Script.desired "2") (Script.plane [] [] []).
Proof.
  split; [| split].
  - apply (proj1 (first_task_needs_nonempty_list (H := Script.lib)
                    (Backend0 := Script.backend) Script.immediate
                    (Script.desired "") (Script.plane [] [] []))).
    exists (), (Script.plane [] [] []), (mkTaskResults []). by repeat split.
  - apply (proj1 (proj2 (first_task_needs_nonempty_list (H := Script.lib)
                    (Backend0 := Script.backend) Script.immediate
                    (Script.desired "2")
                    (Script.plane [] [Ok (Script.pool_of [Script.member_A; Script.member_B])] [])))).
    eexists (), _, (Script.pool_of [Script.member_A; Script.member_B]), _, _, (mkTaskResults []).
    repeat split; vm_compute; reflexivity.
  - apply (proj2 (proj2 (first_task_needs_nonempty_list (H := Script.lib)
                    (Backend0 := Script.backend) Script.immediate
                    (Script.desired "2") (Script.plane [] [] [])))).
    exists (), (Script.plane [] [] []), (mkTaskResults []). by repeat split.
Defined.

(** ** Delete under the task poller of the spec *)

Section Verification.
Context {Remote Client TaskInfo : Type} `{!Backend Remote Client TaskInfo}.
Variable task_state : TaskInfo -> TaskState.
Variable poll_budget : Z -> nat.


Lemma member_listed_iff (members : list PoolMember.t) (mid : string) :
  existsb (fun pm => String.eqb (PoolMember.ID pm) mid) members = true
  <-> exists pm, pm ∈ members /\ PoolMember.ID pm = mid.
Proof.
  rewrite existsb_exists. split; intros (pm & Hin & Hid); exists pm.
  - apply list_elem_of_In in Hin. by apply String.eqb_eq in Hid.
  - apply list_elem_of_In in Hin. by apply String.eqb_eq in Hid.
Qed.


End Verification.



(** A task that stays in progress for the whole budget: the timeout. *)
Example delete_times_out_on_the_task :
  resourceLBMemberDelete (Backend0 := Script.backend)
    Script.poller (Script.desired "2")
    (Script.plane ["t-1"] [Ok (Script.pool_of [Script.member_A])]
       [Ok (Script.mk_task_info TaskInProgress (Ok "2"));
        Ok (Script.mk_task_info TaskInProgress (Ok "2"));
        Ok (Script.mk_task_info TaskInProgress (Ok "2"))])
  = Return (diag_FromErr (ErrTimeout "timeout waiting for task t-1")) (Script.desired "2")
      (Script.plane ["t-1"] [Ok (Script.pool_of [Script.member_A])] []).
Proof. vm_compute; reflexivity. Qed.

(** * Further properties of the lifecycle operations *)

(** ** The scan of a read *)

Section Scan.
Context `{GoLib}.

Lemma overwrite_absorbs (d : ResourceData) (pm pm' : PoolMember.t) (ip ip' : net_IP) :
  overwrite (overwrite d pm ip) pm' ip' = overwrite d pm' ip'.
Proof.
  unfold overwrite, Set_; simpl. f_equal.
  apply map_eq. intros key.
  rewrite !lookup_insert. repeat case_decide; done.
Qed.

Lemma read_members_step (mid : string) (pm : PoolMember.t) (rest : list PoolMember.t)
    (d : ResourceData) (ip : net_IP) :
  String.eqb mid (PoolMember.ID pm) = true ->
  PoolMember.Address pm = Some ip ->
  read_members mid (pm :: rest) d = read_members mid rest (overwrite d pm ip).
Proof. intros Heq Hip. simpl. by rewrite Heq, Hip. Qed.

Lemma last_match_split (mid : string) (members : list PoolMember.t) (found : PoolMember.t) :
  last_match mid members = Some found ->
  exists pre post,
    members = pre ++ found :: post
    /\ PoolMember.ID found = mid
    /\ forall pm, pm ∈ post -> PoolMember.ID pm <> mid.
Proof.
  induction members as [|pm rest IH]; simpl; [done |].
  destruct (last_match mid rest) as [later|] eqn:Hrest.
  - intros [= ->]. destruct (IH eq_refl) as (pre & post & -> & Hid & Hpost).
    by exists (pm :: pre), post.
  - destruct (String.eqb_spec mid (PoolMember.ID pm)) as [Heq|Hne]; [| done].
    intros [= ->]. exists [], rest. split; [done | split; [done |]].
    clear IH. induction rest as [|pm' rest IH]; intros pm Hin.
    + by apply elem_of_nil in Hin.
    + simpl in Hrest. destruct (last_match mid rest) eqn:Hlater; [done |].
      destruct (String.eqb_spec mid (PoolMember.ID pm')) as [|Hne']; [done |].
      apply elem_of_cons in Hin as [->|Hin]; [congruence | by apply IH].
Qed.

Lemma last_match_none (mid : string) (members : list PoolMember.t) :
  last_match mid members = None ->
  forall pm, pm ∈ members -> PoolMember.ID pm <> mid.
Proof.
  induction members as [|pm rest IH]; simpl; intros Hnone pm' Hin.
  - by apply elem_of_nil in Hin.
  - destruct (last_match mid rest) eqn:Hrest; [done |].
    destruct (String.eqb_spec mid (PoolMember.ID pm)) as [|Hne]; [done |].
    apply elem_of_cons in Hin as [->|Hin]; [congruence | by apply IH].
Qed.

(** The scan in closed form: the data is overwritten once, from the last
    member of the identity. *)
Lemma read_members_closed_form (mid : string) (members : list PoolMember.t) :
  (forall pm, pm ∈ members -> PoolMember.ID pm = mid -> PoolMember.Address pm <> None) ->
  forall d : ResourceData,
    read_members mid members d
    = Completed match last_match mid members with
                | Some pm =>
                    match PoolMember.Address pm with
                    | Some ip => overwrite d pm ip
                    | None => d
                    end
                | None => d
                end.
Proof.
  induction members as [|pm rest IH]; intros Haddr d; [done |].
  assert (Hrest : forall pm', pm' ∈ rest -> PoolMember.ID pm' = mid ->
                              PoolMember.Address pm' <> None).
  { intros pm' Hin. apply Haddr. by right. }
  cbn [last_match].
  destruct (String.eqb mid (PoolMember.ID pm)) eqn:Heq.
  - destruct (PoolMember.Address pm) as [ip|] eqn:Hip.
    2:{ exfalso. eapply Haddr; [by left | by apply String.eqb_eq in Heq | exact Hip]. }
    rewrite (read_members_step mid pm rest d ip Heq Hip), (IH Hrest).
    destruct (last_match mid rest) as [later|] eqn:Hlater; [| by rewrite Hip].
    destruct (last_match_split _ _ _ Hlater) as (pre & post & Hsplit & Hid & _).
    destruct (PoolMember.Address later) as [ip'|] eqn:Hip'.
    + by rewrite overwrite_absorbs.
    + exfalso. eapply (Hrest later); [| exact Hid | exact Hip'].
      rewrite Hsplit. apply elem_of_app. right. by left.
  - simpl. rewrite Heq. rewrite (IH Hrest). by destruct (last_match mid rest).
Qed.

(** The scan stops at a member of the identity whose address is nil. *)
Lemma read_members_aborts (mid : string) (members : list PoolMember.t) :
  (exists pm, pm ∈ members /\ PoolMember.ID pm = mid /\ PoolMember.Address pm = None) ->
  forall d : ResourceData, exists d', read_members mid members d = Aborted d'.
Proof.
  induction members as [|pm rest IH]; intros (bad & Hin & Hid & Hnil) d.
  - by apply elem_of_nil in Hin.
  - simpl. apply elem_of_cons in Hin as [->|Hin].
    + rewrite <- Hid, String.eqb_refl, Hnil. eauto.
    + destruct (String.eqb mid (PoolMember.ID pm)); [| apply IH; eauto].
      destruct (PoolMember.Address pm); [apply IH; eauto | eauto].
Qed.

(** Whatever its end, the scan sets none but the tracked fields. *)
Lemma read_members_frame (mid : string) (members : list PoolMember.t) :
  forall d : ResourceData,
    match read_members mid members d with
    | Completed d' | Aborted d' =>
        Timeouts d' = Timeouts d
        /\ forall key, key ∉ tracked_fields -> attrs d' !! key = attrs d !! key
    end.
Proof.
  induction members as [|pm rest IH]; intros d; simpl; [done |].
  destruct (String.eqb mid (PoolMember.ID pm)); [| apply IH].
  destruct (PoolMember.Address pm) as [ip|]; [| done].
  match goal with |- context [read_members mid rest ?d1] => specialize (IH d1) end.
  destruct (read_members mid rest _) as [d'|d']; destruct IH as [Htm Hattrs];
    (split; [exact Htm |]); intros key Hkey; rewrite (Hattrs key Hkey); simpl;
    unfold tracked_fields in Hkey;
    repeat (apply not_elem_of_cons in Hkey as [? Hkey]);
    by rewrite !lookup_insert_ne.
Qed.

End Scan.

Lemma last_match_of_none (mid : string) (members : list PoolMember.t) :
  (forall pm, pm ∈ members -> PoolMember.ID pm <> mid) ->
  last_match mid members = None.
Proof.
  induction members as [|pm rest IH]; intros Hnone; simpl; [done |].
  rewrite IH by (intros pm' Hin; apply Hnone; by right).
  destruct (String.eqb_spec mid (PoolMember.ID pm)) as [Heq|Hne]; [| done].
  exfalso. eapply Hnone; [by left | done].
Qed.

Lemma last_match_of_split (mid : string) (pre post : list PoolMember.t) (pm : PoolMember.t) :
  PoolMember.ID pm = mid ->
  (forall pm', pm' ∈ post -> PoolMember.ID pm' <> mid) ->
  last_match mid (pre ++ pm :: post) = Some pm.
Proof.
  intros Hid Hpost. induction pre as [|head pre IH]; simpl.
  - rewrite (last_match_of_none mid post Hpost). by rewrite <- Hid, String.eqb_refl.
  - by rewrite IH.
Qed.

(** X1: when several members of the pool have the resource's identity, the
    scan of a read ends with the fields of the last of them: the loop has no
    [break], so each later match overwrites the earlier one. *)
Theorem read_members_last_match_wins `{GoLib} (mid : string) (d : ResourceData)
    (pre post : list PoolMember.t) (pm : PoolMember.t) :
  (forall pm', pm' ∈ pre ++ pm :: post -> PoolMember.ID pm' = mid ->
               PoolMember.Address pm' <> None) ->
  PoolMember.ID pm = mid ->
  (forall pm', pm' ∈ post -> PoolMember.ID pm' <> mid) ->
  exists ip,
    PoolMember.Address pm = Some ip
    /\ read_members mid (pre ++ pm :: post) d = Completed (overwrite d pm ip)
    /\ reflects pm (overwrite d pm ip).
Proof.
  intros Haddr Hid Hpost.
  rewrite (read_members_closed_form mid _ Haddr d).
  rewrite (last_match_of_split mid pre post pm Hid Hpost).
  destruct (PoolMember.Address pm) as [ip|] eqn:Hip.
  - exists ip. split; [done | split; [done |]]. exists ip. split; [exact Hip |].
    unfold overwrite, Set_; simpl.
    repeat split;
      repeat (first [ rewrite lookup_insert_eq; reflexivity
                    | rewrite lookup_insert_ne by done ]).
  - exfalso. eapply (Haddr pm); [| exact Hid | exact Hip].
    apply elem_of_app. right. by left.
Qed.

(** X2: a scan that runs to its end is idempotent: scanning the same
    members again, from the data the first scan left, changes nothing. *)
Theorem read_members_idempotent `{GoLib} (mid : string) (members : list PoolMember.t)
    (d : ResourceData) :
  (forall pm, pm ∈ members -> PoolMember.ID pm = mid -> PoolMember.Address pm <> None) ->
  exists d',
    read_members mid members d = Completed d'
    /\ read_members mid members d' = Completed d'.
Proof.
  intros Haddr.
  eexists. split; [apply (read_members_closed_form mid members Haddr) |].
  rewrite (read_members_closed_form mid members Haddr).
  destruct (last_match mid members) as [pm|]; [| done].
  destruct (PoolMember.Address pm) as [ip|]; [| done].
  by rewrite overwrite_absorbs.
Qed.

(** ** Read as a whole *)

Section ReadOutcome.
Context `{GoLib} {Remote Client TaskInfo : Type} `{!Backend Remote Client TaskInfo}.

(** Whatever its end, a read keeps the timeouts and every field other than
    the tracked ones and the two it reverts. *)
Lemma read_frame (d : ResourceData) (r : Remote) :
  Timeouts (final_data (resourceLBMemberRead d r)) = Timeouts d
  /\ forall key, key ∉ read_fields ->
                 attrs (final_data (resourceLBMemberRead d r)) !! key = attrs d !! key.
Proof.
  unfold resourceLBMemberRead.
  destruct (CreateClient d r) as [[client|err] r1]; [| done].
  destruct (lbpools_Get client (Get_string d "pool_id") r1) as [[pool|err] r2]; [| done].
  pose proof (read_members_frame (Id d) (Pool.Members pool) d) as Hscan.
  destruct (read_members (Id d) (Pool.Members pool) d) as [d1|d1];
    destruct Hscan as [Htm Hattrs].
  - destruct (revertState_frame ["project_id"; "region_id"] d1) as (_ & Htm' & Hattrs').
    cbv zeta. unfold final_data. split; [by rewrite Htm' |].
    intros key Hkey. unfold read_fields in Hkey.
    apply not_elem_of_app in Hkey as [Htracked Hreverted].
    by rewrite Hattrs', Hattrs.
  - simpl. split; [exact Htm |].
    intros key Hkey. apply Hattrs. unfold read_fields in Hkey.
    by apply not_elem_of_app in Hkey as [Htracked _].
Qed.

End ReadOutcome.

(** X3: a read reports an error only when client construction or the pool
    fetch failed; the diagnostic is that error, and the resource data is
    exactly as it was.  A read that fetched the pool never reports an
    error. *)
Theorem read_error_changes_nothing `{GoLib} {Remote Client TaskInfo : Type}
    `{!Backend Remote Client TaskInfo}
    (d d' : ResourceData) (r r' : Remote) (diags : Diagnostics) :
  resourceLBMemberRead d r = Return diags d' r' ->
  HasError diags = true ->
  d' = d
  /\ ((exists err, CreateClient d r = (Err err, r') /\ diags = diag_FromErr err)
      \/ (exists client r1 err,
            CreateClient d r = (Ok client, r1)
            /\ lbpools_Get client (Get_string d "pool_id") r1 = (Err err, r')
            /\ diags = diag_FromErr err)).
Proof.
  unfold resourceLBMemberRead. intros Hrun Herr.
  destruct (CreateClient d r) as [[client|err] r1] eqn:Hclient.
  - destruct (lbpools_Get client (Get_string d "pool_id") r1) as [[pool|err] r2] eqn:Hpool.
    + destruct (read_members (Id d) (Pool.Members pool) d); inversion Hrun; subst.
      discriminate.
    + inversion Hrun; subst. split; [done |]. right. by exists client, r1, err.
  - inversion Hrun; subst. split; [done |]. left. by exists err.
Qed.

Lemma read_error_changes_nothing_witness :
  Script.desired "2" = Script.desired "2"
  /\ ((exists err,
         CreateClient (Backend := Script.backend) (Script.desired "2") (Script.plane [] [] [])
         = (Err err, Script.plane [] [] [])
         /\ diag_FromErr (ErrOther "no answer left") = diag_FromErr err)
      \/ (exists client r1 err,
            CreateClient (Backend := Script.backend) (Script.desired "2")
              (Script.plane [] [] []) = (Ok client, r1)
            /\ lbpools_Get (Backend := Script.backend) client
                 (Get_string (Script.desired "2") "pool_id") r1
               = (Err err, Script.plane [] [] [])
            /\ diag_FromErr (ErrOther "no answer left") = diag_FromErr err)).
Proof.
  apply (read_error_changes_nothing (H := Script.lib) (Backend0 := Script.backend)
           (Script.desired "2") (Script.desired "2")
           (Script.plane [] [] []) (Script.plane [] [] [])
           (diag_FromErr (ErrOther "no answer left"))); reflexivity.
Defined.

(** X4: a read that fetched the pool panics, with a nil dereference, exactly
    when some member of the resource's identity comes without an address;
    the identity is as it was. *)
Theorem read_panics_iff `{GoLib} {Remote Client TaskInfo : Type}
    `{!Backend Remote Client TaskInfo}
    (d : ResourceData) (r r1 r2 : Remote) (client : Client) (pool : Pool.t) :
  CreateClient d r = (Ok client, r1) ->
  lbpools_Get client (Get_string d "pool_id") r1 = (Ok pool, r2) ->
  (exists d', resourceLBMemberRead d r = Panic NilDereference d' r2 /\ Id d' = Id d)
  <-> exists pm,
        pm ∈ Pool.Members pool /\ PoolMember.ID pm = Id d /\ PoolMember.Address pm = None.
Proof.
  intros Hclient Hpool. unfold resourceLBMemberRead. rewrite Hclient, Hpool. split.
  - intros (d' & Hrun & _).
    destruct (decide (Exists (fun pm => PoolMember.ID pm = Id d
                                        /\ PoolMember.Address pm = None)
                        (Pool.Members pool))) as [Hbad|Hgood].
    + apply Exists_exists in Hbad as (pm & Hin & Hpm). eauto.
    + rewrite (read_members_closed_form (Id d) (Pool.Members pool)) in Hrun; [done |].
      intros pm Hin Hid Hnil. apply Hgood, Exists_exists. eauto.
  - intros Hbad.
    destruct (read_members_aborts (Id d) (Pool.Members pool) Hbad d) as (d' & Hrun).
    pose proof (read_members_keeps_identity (Id d) (Pool.Members pool) d) as Hid.
    rewrite Hrun in *. by exists d'.
Qed.

Lemma read_panics_iff_witness :
  (exists d',
      resourceLBMemberRead (H := Script.lib) (Backend0 := Script.backend)
        (Script.desired "2")
        (Script.plane [] [Ok (Script.pool_of [Script.member_A; Script.unaddressed "2"])] [])
      = Panic NilDereference d' (Script.plane [] [] [])
      /\ Id d' = "2")
  <-> exists pm,
        pm ∈ [Script.member_A; Script.unaddressed "2"]
        /\ PoolMember.ID pm = "2" /\ PoolMember.Address pm = None.
Proof.
  apply (read_panics_iff (H := Script.lib) (Backend0 := Script.backend)
           (Script.desired "2")
           (Script.plane [] [Ok (Script.pool_of [Script.member_A; Script.unaddressed "2"])] [])
           (Script.plane [] [Ok (Script.pool_of [Script.member_A; Script.unaddressed "2"])] [])
           (Script.plane [] [] []) ()
           (Script.pool_of [Script.member_A; Script.unaddressed "2"])); reflexivity.
Defined.

(** X5: however a read ends, it keeps the identity, the timeouts and every
    field other than the six tracked ones, "project_id" and "region_id";
    the pool reference in particular is never rewritten. *)
Theorem read_keeps_other_fields `{GoLib} {Remote Client TaskInfo : Type}
    `{!Backend Remote Client TaskInfo} (d : ResourceData) (r : Remote) (key : string) :
  key ∉ read_fields ->
  attrs (final_data (resourceLBMemberRead d r)) !! key = attrs d !! key
  /\ Id (final_data (resourceLBMemberRead d r)) = Id d
  /\ Timeouts (final_data (resourceLBMemberRead d r)) = Timeouts d.
Proof.
  intros Hkey. destruct (read_frame d r) as [Htm Hattrs].
  split; [by apply Hattrs | split; [apply read_keeps_identity | exact Htm]].
Qed.

Lemma read_keeps_other_fields_witness :
  attrs (final_data (resourceLBMemberRead (H := Script.lib) (Backend0 := Script.backend)
                       (Script.desired "2")
                       (Script.plane [] [Ok (Script.pool_of [Script.member_B])] [])))
    !! "pool_id" = Some (VString "p-7").
Proof.
  apply (read_keeps_other_fields (H := Script.lib) (Backend0 := Script.backend)
           (Script.desired "2")
           (Script.plane [] [Ok (Script.pool_of [Script.member_B])] []) "pool_id").
  unfold read_fields, tracked_fields; simpl. not_listed.
Defined.

Lemma read_members_last_match_wins_witness :
  exists ip,
    PoolMember.Address (Script.addressed "2" "10.0.0.9" 7) = Some ip
    /\ read_members (H := Script.lib) "2"
         ([Script.member_A; Script.member_B] ++ Script.addressed "2" "10.0.0.9" 7
            :: [Script.member_C])
         (Script.desired "2")
       = Completed (overwrite (H := Script.lib) (Script.desired "2")
                      (Script.addressed "2" "10.0.0.9" 7) ip)
    /\ reflects (H := Script.lib) (Script.addressed "2" "10.0.0.9" 7)
         (overwrite (H := Script.lib) (Script.desired "2")
            (Script.addressed "2" "10.0.0.9" 7) ip).
Proof.
  apply (read_members_last_match_wins (H := Script.lib) "2" (Script.desired "2")
           [Script.member_A; Script.member_B] [Script.member_C]
           (Script.addressed "2" "10.0.0.9" 7)).
  - intros pm Hin _. cases_of_elem Hin; subst pm; discriminate.
  - reflexivity.
  - intros pm Hin. cases_of_elem Hin; subst pm; discriminate.
Defined.

Lemma read_members_idempotent_witness :
  exists d',
    read_members (H := Script.lib) "2" [Script.member_A; Script.member_B]
      (Script.desired "2") = Completed d'
    /\ read_members (H := Script.lib) "2" [Script.member_A; Script.member_B] d'
       = Completed d'.
Proof.
  apply (read_members_idempotent (H := Script.lib) "2"
           [Script.member_A; Script.member_B] (Script.desired "2")).
  intros pm Hin _. cases_of_elem Hin; subst pm; discriminate.
Defined.

(** ** The reconciliation, as a whole list *)

(** X7: whenever the reconciliation returns a collection, its identities are
    those of the current members, in the same order: no member is dropped,
    added or moved, also when several members share the resource's
    identity. *)
Theorem update_members_keeps_identities `{GoLib} (d : ResourceData)
    (pms : list PoolMember.t) (members : list CreatePoolMemberOpts.t) :
  update_members d pms = Some members ->
  map CreatePoolMemberOpts.ID members = map PoolMember.ID pms.
Proof.
  intros Hrun.
  destruct (update_members_replaces d pms) as (members' & Hrun' & Hlen & Hslots).
  { intros pm Hin Hne Hnil.
    unfold update_members in Hrun.
    rewrite update_loop_nil_address in Hrun; [done | eauto]. }
  rewrite Hrun in Hrun'. injection Hrun' as <-.
  apply list_eq. intros i. rewrite !list_lookup_fmap.
  destruct (pms !! i) as [pm|] eqn:Hpm.
  - destruct (Hslots i pm Hpm) as (opts & -> & Hcopy & Hdesired). simpl. f_equal.
    destruct (decide (PoolMember.ID pm = Id d)) as [Heq|Hne].
    + destruct (Hdesired Heq) as (_ & _ & _ & _ & _ & ->). done.
    + by destruct (Hcopy Hne) as (_ & _ & _ & _ & _ & ->).
  - apply lookup_ge_None in Hpm.
    rewrite (proj2 (lookup_ge_None members i)); [done | lia].
Qed.

Lemma update_members_keeps_identities_witness :
  map CreatePoolMemberOpts.ID
    [CreatePoolMemberOpts.mk (Script.parse_ipv4 "10.0.0.1") 80 5 "subnet-1" "" "1";
     CreatePoolMemberOpts.mk (Script.parse_ipv4 "10.0.0.2") 8080 42 "subnet-2" "" "2"]
  = map PoolMember.ID [Script.member_A; Script.member_B].
Proof.
  apply (update_members_keeps_identities (H := Script.lib) (Script.desired "2")
           [Script.member_A; Script.member_B]).
  vm_compute. reflexivity.
Defined.

(** ** Validation and the creation request *)

(** X8: the address of the creation request is non-nil exactly when the
    configured address passes the address validator: a validated
    configuration never sends a nil address, and an unvalidated one that
    [net.ParseIP] refuses is sent as nil. *)
Theorem validated_address_is_sent `{GoLib} (d : ResourceData) (key : Path) :
  validate_address (Get_string d "address") key = []
  <-> CreatePoolMemberOpts.Address (create_opts d) <> None.
Proof.
  unfold validate_address, create_opts; simpl.
  destruct (net_ParseIP (Get_string d "address")); split; done.
Qed.

(** ** Import *)

(** X9: an import that succeeds sets "project_id", "region_id", "pool_id"
    and the identity, and nothing else: every other field and the timeouts
    are as they were. *)
Theorem import_keeps_other_fields
    (parser : string -> result (Z * Z * string * string)) (d : ResourceData)
    (projectID regionID : Z) (memberID lbPoolID : string) (key : string) :
  parser (Id d) = Ok (projectID, regionID, memberID, lbPoolID) ->
  key ∉ ["project_id"; "region_id"; "pool_id"] ->
  attrs (Importer_StateContext parser d).1 !! key = attrs d !! key
  /\ Timeouts (Importer_StateContext parser d).1 = Timeouts d.
Proof.
  intros Hparse Hkey. unfold Importer_StateContext. rewrite Hparse. simpl.
  split; [| done].
  repeat (apply not_elem_of_cons in Hkey as [? Hkey]).
  by rewrite !lookup_insert_ne.
Qed.

Lemma import_keeps_other_fields_witness :
  attrs (Importer_StateContext ImportStringParserExtended
           (Script.resource "42/5/m-100/p-7" [("weight", VInt 7)])).1 !! "weight"
  = Some (VInt 7)
  /\ Timeouts (Importer_StateContext ImportStringParserExtended
                 (Script.resource "42/5/m-100/p-7" [("weight", VInt 7)])).1
     = Script.timeouts.
Proof.
  apply (import_keeps_other_fields ImportStringParserExtended
           (Script.resource "42/5/m-100/p-7" [("weight", VInt 7)])
           42 5 "m-100" "p-7" "weight").
  - reflexivity.
  - not_listed.
Defined.

(** ** Update, delete and create as a whole *)

Section Outcomes.
Context `{GoLib} {Remote Client TaskInfo : Type} `{!Backend Remote Client TaskInfo}.
Variable WaitTaskAndReturnResult : TaskPoller (Remote := Remote) (Client := Client).

Lemma last_updated_not_read : "last_updated" ∉ read_fields.
Proof. unfold read_fields, tracked_fields; simpl. not_listed. Qed.

(** X10: an update never changes the identity; and unless the task poller
    returned without error it changes nothing at all: when the resource data
    differ from those at entry, the poller has succeeded and "last_updated"
    holds the time stamped right after it. *)
Theorem update_stamps_after_wait_only (d : ResourceData) (r : Remote) :
  let update := resourceLBMemberUpdate WaitTaskAndReturnResult d r in
  Id (final_data update) = Id d
  /\ (final_data update <> d ->
      exists client taskID r3 result r4,
        WaitTaskAndReturnResult client taskID true (d_Timeout d TimeoutUpdate)
          (update_retriever client) r3 = (Ok result, r4)
        /\ attrs (final_data update) !! "last_updated"
           = Some (VString (time_Now_RFC850 r4))).
Proof.
  cbv zeta. unfold resourceLBMemberUpdate.
  destruct (CreateClient d r) as [[client|err] r1]; [| done].
  destruct (lbpools_Get _ _ r1) as [[pool|err] r2]; [| done].
  destruct (update_members d (Pool.Members pool)) as [members|]; [| done].
  destruct (lbpools_Update _ _ _ _ r2) as [[results|err] r3]; [| done].
  destruct (Tasks results) as [|taskID rest]; [done |].
  destruct (WaitTaskAndReturnResult _ _ _ _ _ r3) as [[result|err] r4] eqn:Hwait; [| done].
  split.
  - by rewrite read_keeps_identity.
  - intros _. exists client, taskID, r3, result, r4. split; [exact Hwait |].
    destruct (read_frame (Set_ d "last_updated" (VString (time_Now_RFC850 r4))) r4)
      as [_ Hattrs].
    rewrite (Hattrs _ last_updated_not_read). simpl. by rewrite lookup_insert_eq.
Qed.

(** X11: when the fetched pool lists a member, other than the resource's
    own, without an address, an update panics at the dereference before it
    sends any request: the resource data are as they were and the control
    plane is in the state the pool fetch left. *)
Theorem update_panics_before_request (d : ResourceData) (r r1 r2 : Remote)
    (client : Client) (pool : Pool.t) :
  CreateClient d r = (Ok client, r1) ->
  lbpools_Get client (Get_string d "pool_id") r1 = (Ok pool, r2) ->
  (exists pm, pm ∈ Pool.Members pool
              /\ PoolMember.ID pm <> Id d /\ PoolMember.Address pm = None) ->
  resourceLBMemberUpdate WaitTaskAndReturnResult d r = Panic NilDereference d r2.
Proof.
  intros Hclient Hpool Hbad. unfold resourceLBMemberUpdate, update_members.
  by rewrite Hclient, Hpool, (update_loop_nil_address d _ _ _ Hbad).
Qed.

(** X12: a delete ends in one of three ways, whatever the poller and the
    control plane: it returns no diagnostic and the identity is cleared, all
    else kept; or it returns an error and the resource data are exactly as
    they were; or it panics at the first task, the data again as they
    were. *)
Theorem delete_clears_identity_iff_success (d : ResourceData) (r : Remote) :
  match resourceLBMemberDelete WaitTaskAndReturnResult d r with
  | Return diags d' _ =>
      (diags = [] /\ d' = SetId d "") \/ (HasError diags = true /\ d' = d)
  | Panic reason d' _ => reason = IndexOutOfRange /\ d' = d
  end.
Proof.
  unfold resourceLBMemberDelete.
  destruct (CreateClient d r) as [[client|err] r1]; [| by right].
  destruct (lbpools_DeleteMember _ _ _ _ r1) as [[results|err] r2].
  - destruct (Tasks results) as [|taskID rest]; [done |].
    destruct (WaitTaskAndReturnResult _ _ _ _ _ r2) as [[result|err] r3];
      [by left | by right].
  - destruct err; [by left | by right..].
Qed.

(** X13: once the poller has returned the new identity, a create reports
    success whatever its closing read returns: the diagnostics of the read
    are dropped, and the resource keeps the new identity. *)
Theorem create_drops_read_diagnostics (d d' : ResourceData) (r r1 r2 r3 r' : Remote)
    (client : Client) (results : TaskResults) (taskID pmID : string)
    (rest : list string) (diags : Diagnostics) :
  CreateClient d r = (Ok client, r1) ->
  lbpools_CreateMember client (Get_string d "pool_id") (create_opts d)
    (request_opts (GetConflictRetryConfig (d_Timeout d TimeoutCreate))) r1
  = (Ok results, r2) ->
  Tasks results = taskID :: rest ->
  WaitTaskAndReturnResult client taskID true (d_Timeout d TimeoutCreate)
    (create_retriever client) r2 = (Ok (AnyString pmID), r3) ->
  resourceLBMemberRead (SetId d pmID) r3 = Return diags d' r' ->
  resourceLBMemberCreate WaitTaskAndReturnResult d r = Return [] d' r'
  /\ Id d' = pmID.
Proof.
  intros Hclient Hcreate Htasks Hwait Hread. unfold resourceLBMemberCreate.
  rewrite Hclient, Hcreate, Htasks, Hwait, Hread. split; [done |].
  pose proof (read_keeps_identity (SetId d pmID) r3) as Hid.
  by rewrite Hread in Hid.
Qed.

(** A read that returns an error has changed nothing. *)
Lemma read_error_keeps_data (d d' : ResourceData) (r r' : Remote) (diags : Diagnostics) :
  resourceLBMemberRead d r = Return diags d' r' -> HasError diags = true -> d' = d.
Proof.
  unfold resourceLBMemberRead. intros Hrun Herr.
  destruct (CreateClient d r) as [[client|err] r1]; [| by inversion Hrun].
  destruct (lbpools_Get client (Get_string d "pool_id") r1) as [[pool|err] r2];
    [| by inversion Hrun].
  destruct (read_members (Id d) (Pool.Members pool) d); inversion Hrun; subst.
  discriminate.
Qed.

(** X14: an update whose remote change succeeded still reports the error of
    a failed refresh: once the poller has returned without error, an error
    of the closing read is the outcome of the update, and the resource data
    are those at entry with "last_updated" stamped, nothing else. *)
Theorem update_reports_refresh_error (d d' : ResourceData) (r r1 r2 r3 r4 r' : Remote)
    (client : Client) (pool : Pool.t) (members : list CreatePoolMemberOpts.t)
    (results : TaskResults) (taskID : string) (rest : list string) (result : Any)
    (diags : Diagnostics) :
  CreateClient d r = (Ok client, r1) ->
  lbpools_Get client (Get_string d "pool_id") r1 = (Ok pool, r2) ->
  update_members d (Pool.Members pool) = Some members ->
  lbpools_Update client (Pool.ID pool) (UpdateOpts.mk (Pool.Name pool) members)
    (request_opts (GetConflictRetryConfig (d_Timeout d TimeoutUpdate))) r2
  = (Ok results, r3) ->
  Tasks results = taskID :: rest ->
  WaitTaskAndReturnResult client taskID true (d_Timeout d TimeoutUpdate)
    (update_retriever client) r3 = (Ok result, r4) ->
  resourceLBMemberRead (Set_ d "last_updated" (VString (time_Now_RFC850 r4))) r4
  = Return diags d' r' ->
  HasError diags = true ->
  resourceLBMemberUpdate WaitTaskAndReturnResult d r
  = Return diags (Set_ d "last_updated" (VString (time_Now_RFC850 r4))) r'.
Proof.
  intros Hclient Hpool Hmembers Hupdate Htasks Hwait Hread Herr.
  unfold resourceLBMemberUpdate.
  rewrite Hclient, Hpool, Hmembers, Hupdate, Htasks, Hwait, Hread.
  by rewrite (read_error_keeps_data _ _ _ _ _ Hread Herr).
Qed.

(** X15: no lifecycle operation rewrites a field other than the six tracked
    ones, "project_id", "region_id" and "last_updated", and none changes the
    timeouts: the pool reference in particular survives create, update and
    delete, however they end. *)
Theorem lifecycle_keeps_other_fields (d : ResourceData) (r : Remote) (key : string) :
  key ∉ read_fields ->
  key <> "last_updated" ->
  attrs (final_data (resourceLBMemberCreate WaitTaskAndReturnResult d r)) !! key
  = attrs d !! key
  /\ attrs (final_data (resourceLBMemberUpdate WaitTaskAndReturnResult d r)) !! key
     = attrs d !! key
  /\ attrs (final_data (resourceLBMemberDelete WaitTaskAndReturnResult d r)) !! key
     = attrs d !! key.
Proof.
  intros Hkey Hstamp. split; [| split].
  - unfold resourceLBMemberCreate.
    destruct (CreateClient d r) as [[client|err] r1]; [| done].
    destruct (lbpools_CreateMember _ _ _ _ r1) as [[results|err] r2]; [| done].
    destruct (Tasks results) as [|taskID rest]; [done |].
    destruct (WaitTaskAndReturnResult _ _ _ _ _ r2) as [[[|pmID]|err] r3]; try done.
    destruct (read_frame (SetId d pmID) r3) as [_ Hattrs].
    specialize (Hattrs key Hkey).
    by destruct (resourceLBMemberRead (SetId d pmID) r3).
  - unfold resourceLBMemberUpdate.
    destruct (CreateClient d r) as [[client|err] r1]; [| done].
    destruct (lbpools_Get _ _ r1) as [[pool|err] r2]; [| done].
    destruct (update_members d (Pool.Members pool)) as [members|]; [| done].
    destruct (lbpools_Update _ _ _ _ r2) as [[results|err] r3]; [| done].
    destruct (Tasks results) as [|taskID rest]; [done |].
    destruct (WaitTaskAndReturnResult _ _ _ _ _ r3) as [[result|err] r4]; [| done].
    destruct (read_frame (Set_ d "last_updated" (VString (time_Now_RFC850 r4))) r4)
      as [_ Hattrs].
    rewrite (Hattrs key Hkey). simpl. by rewrite lookup_insert_ne.
  - unfold resourceLBMemberDelete.
    destruct (CreateClient d r) as [[client|err] r1]; [| done].
    destruct (lbpools_DeleteMember _ _ _ _ r1) as [[results|err] r2]; [| by destruct err].
    destruct (Tasks results) as [|taskID rest]; [done |].
    by destruct (WaitTaskAndReturnResult _ _ _ _ _ r2) as [[result|err] r3].
Qed.

(** X16: the retriever of delete succeeds exactly when the pool could be
    fetched and lists no member of the identity; it returns nil, makes the
    one fetch and ignores the task it is given. *)
Theorem delete_retriever_succeeds_iff (client : Client) (pid mid task : string)
    (r r' : Remote) (result : Any) :
  delete_retriever client pid mid task r = (Ok result, r')
  <-> result = AnyNil
      /\ exists pool,
          lbpools_Get client pid r = (Ok pool, r')
          /\ forall pm, pm ∈ Pool.Members pool -> PoolMember.ID pm <> mid.
Proof.
  unfold delete_retriever.
  destruct (lbpools_Get client pid r) as [[pool|err] r1].
  - destruct (existsb _ (Pool.Members pool)) eqn:Hlisted.
    + split; [done |]. intros (_ & pool' & [= <- <-] & Hgone).
      apply member_listed_iff in Hlisted as (pm & Hin & Hid). by destruct (Hgone pm Hin).
    + split.
      * intros [= <- <-]. split; [done |]. exists pool. split; [done |].
        intros pm Hin Hid.
        assert (existsb (fun pm => String.eqb (PoolMember.ID pm) mid) (Pool.Members pool)
                = true) as Hyes by (apply member_listed_iff; eauto).
        congruence.
      * by intros (-> & pool' & [= <- <-] & _).
  - split; [done |]. by intros (_ & pool' & Hget & _).
Qed.

End Outcomes.

Lemma update_stamps_after_wait_only_witness :
  exists client taskID r3 result r4,
    Script.immediate client taskID true (d_Timeout (Script.desired "2") TimeoutUpdate)
      (update_retriever (Backend0 := Script.backend) client) r3 = (Ok result, r4)
    /\ attrs (final_data
                (resourceLBMemberUpdate (H := Script.lib) (Backend0 := Script.backend)
                   Script.immediate (Script.desired "2")
                   (Script.plane ["t-1"]
                      [Ok (Script.pool_of [Script.member_A; Script.member_B]);
                       Ok (Script.pool_of [Script.member_A; Script.member_B])]
                      [Ok (Script.mk_task_info TaskFinished (Ok "2"))])))
         !! "last_updated"
       = Some (VString (time_Now_RFC850 (Backend := Script.backend) r4)).
Proof.
  apply (proj2 (update_stamps_after_wait_only (H := Script.lib)
                  (Backend0 := Script.backend) Script.immediate (Script.desired "2")
                  (Script.plane ["t-1"]
                     [Ok (Script.pool_of [Script.member_A; Script.member_B]);
                      Ok (Script.pool_of [Script.member_A; Script.member_B])]
                     [Ok (Script.mk_task_info TaskFinished (Ok "2"))]))).
  intros Hsame.
  apply (f_equal (fun data => attrs data !! "last_updated")) in Hsame.
  vm_compute in Hsame. discriminate.
Defined.

Lemma update_panics_before_request_witness :
  resourceLBMemberUpdate (H := Script.lib) (Backend0 := Script.backend)
    Script.immediate (Script.desired "2")
    (Script.plane ["t-1"] [Ok (Script.pool_of [Script.member_B; Script.unaddressed "3"])] [])
  = Panic NilDereference (Script.desired "2") (Script.plane ["t-1"] [] []).
Proof.
  apply (update_panics_before_request (H := Script.lib) (Backend0 := Script.backend)
           Script.immediate (Script.desired "2")
           (Script.plane ["t-1"]
              [Ok (Script.pool_of [Script.member_B; Script.unaddressed "3"])] [])
           (Script.plane ["t-1"]
              [Ok (Script.pool_of [Script.member_B; Script.unaddressed "3"])] [])
           (Script.plane ["t-1"] [] []) ()
           (Script.pool_of [Script.member_B; Script.unaddressed "3"]) eq_refl eq_refl).
  exists (Script.unaddressed "3"). split; [right; left | split; [discriminate | reflexivity]].
Defined.

Lemma create_drops_read_diagnostics_witness :
  resourceLBMemberCreate (H := Script.lib) (Backend0 := Script.backend)
    Script.immediate (Script.desired "")
    (Script.plane ["t-1"] [Err (ErrOther "bad gateway")]
       [Ok (Script.mk_task_info TaskFinished (Ok "m-100"))])
  = Return [] (SetId (Script.desired "") "m-100") (Script.plane ["t-1"] [] [])
  /\ Id (SetId (Script.desired "") "m-100") = "m-100".
Proof.
  apply (create_drops_read_diagnostics (H := Script.lib) (Backend0 := Script.backend)
           Script.immediate (Script.desired "") (SetId (Script.desired "") "m-100")
           (Script.plane ["t-1"] [Err (ErrOther "bad gateway")]
              [Ok (Script.mk_task_info TaskFinished (Ok "m-100"))])
           (Script.plane ["t-1"] [Err (ErrOther "bad gateway")]
              [Ok (Script.mk_task_info TaskFinished (Ok "m-100"))])
           (Script.plane ["t-1"] [Err (ErrOther "bad gateway")]
              [Ok (Script.mk_task_info TaskFinished (Ok "m-100"))])
           (Script.plane ["t-1"] [Err (ErrOther "bad gateway")] [])
           (Script.plane ["t-1"] [] [])
           () (mkTaskResults ["t-1"]) "t-1" "m-100" []
           (diag_FromErr (ErrOther "bad gateway"))); reflexivity.
Defined.

Lemma update_reports_refresh_error_witness :
  resourceLBMemberUpdate (H := Script.lib) (Backend0 := Script.backend)
    Script.immediate (Script.desired "2")
    (Script.plane ["t-1"]
       [Ok (Script.pool_of [Script.member_B]); Err (ErrOther "bad gateway")]
       [Ok (Script.mk_task_info TaskFinished (Ok "2"))])
  = Return (diag_FromErr (ErrOther "bad gateway"))
      (Set_ (Script.desired "2") "last_updated"
         (VString "Saturday, 31-Oct-26 12:00:00 UTC"))
      (Script.plane ["t-1"] [] []).
Proof.
  apply (update_reports_refresh_error (H := Script.lib) (Backend0 := Script.backend)
           Script.immediate (Script.desired "2")
           (Set_ (Script.desired "2") "last_updated"
              (VString "Saturday, 31-Oct-26 12:00:00 UTC"))
           (Script.plane ["t-1"]
              [Ok (Script.pool_of [Script.member_B]); Err (ErrOther "bad gateway")]
              [Ok (Script.mk_task_info TaskFinished (Ok "2"))])
           (Script.plane ["t-1"]
              [Ok (Script.pool_of [Script.member_B]); Err (ErrOther "bad gateway")]
              [Ok (Script.mk_task_info TaskFinished (Ok "2"))])
           (Script.plane ["t-1"] [Err (ErrOther "bad gateway")]
              [Ok (Script.mk_task_info TaskFinished (Ok "2"))])
           (Script.plane ["t-1"] [Err (ErrOther "bad gateway")]
              [Ok (Script.mk_task_info TaskFinished (Ok "2"))])
           (Script.plane ["t-1"] [Err (ErrOther "bad gateway")] [])
           (Script.plane ["t-1"] [] [])
           () (Script.pool_of [Script.member_B])
           [CreatePoolMemberOpts.mk (Script.parse_ipv4 "10.0.0.2") 8080 42 "subnet-2" "" "2"]
           (mkTaskResults ["t-1"]) "t-1" [] (AnyString "2")
           (diag_FromErr (ErrOther "bad gateway"))); reflexivity.
Defined.

Lemma lifecycle_keeps_other_fields_witness :
  attrs (final_data
           (resourceLBMemberCreate (H := Script.lib) (Backend0 := Script.backend)
              Script.immediate (Script.desired "")
              (Script.plane ["t-1"] [Ok (Script.pool_of [Script.member_B])]
                 [Ok (Script.mk_task_info TaskFinished (Ok "2"))]))) !! "pool_id"
  = Some (VString "p-7")
  /\ attrs (final_data
              (resourceLBMemberUpdate (H := Script.lib) (Backend0 := Script.backend)
                 Script.immediate (Script.desired "")
                 (Script.plane ["t-1"] [Ok (Script.pool_of [Script.member_B])]
                    [Ok (Script.mk_task_info TaskFinished (Ok "2"))]))) !! "pool_id"
     = Some (VString "p-7")
  /\ attrs (final_data
              (resourceLBMemberDelete (Backend0 := Script.backend)
                 Script.immediate (Script.desired "")
                 (Script.plane ["t-1"] [Ok (Script.pool_of [Script.member_B])]
                    [Ok (Script.mk_task_info TaskFinished (Ok "2"))]))) !! "pool_id"
     = Some (VString "p-7").
Proof.
  apply (lifecycle_keeps_other_fields (H := Script.lib) (Backend0 := Script.backend)
           Script.immediate (Script.desired "")
           (Script.plane ["t-1"] [Ok (Script.pool_of [Script.member_B])]
              [Ok (Script.mk_task_info TaskFinished (Ok "2"))]) "pool_id").
  - unfold read_fields, tracked_fields; simpl. not_listed.
  - discriminate.
Defined.
